(** * ipkiss: a ledger service over a document store

    Shallow embedding of [functions/index.js]: the three HTTP handlers
    [reset], [balance] and [event], the Firestore collection ["accounts"]
    they read and write, and the buffered-write transaction used by the
    transfer branch.

    Conventions of the embedding.
    - A JavaScript number is an integer of [Z] that a double holds.  [+]
      and [-] give the double nearest to the exact result, ties to the even
      significand ([JS.round]); they are exact up to 2^53 in magnitude.
      [<] is exact.  Amounts and balances of any sign are numbers; the
      handlers never test the sign.  Results from 2^1024 on (Infinity) and
      fractions are outside the embedding, and [toString] is the decimal
      text only up to 2^53: the theorems that need an exact result carry
      [JS.representable] or the bound.
    - A field of the request body or query is an [option]: [None] when the
      field is missing.  An amount is a number, an id and a type are
      strings.  [!x] is written out with JavaScript truthiness.
    - [accounts.doc(id)] resolves the id as a path below the collection, as
      the client library does: it throws for a path that does not name a
      document.  The store maps the path of each document, relative to the
      collection, to the document; the documents of the collection itself
      are those whose path has one segment.  The store accepts every
      reference the client builds.  Handlers run one at a time:
      [handler request db] gives the reply and the store after it. *)

From Stdlib Require Import ZArith Lia Ascii.
From stdpp Require Import base option strings gmap pretty.

Open Scope Z_scope.

(** ** JavaScript values as the handlers use them *)

Module JS.

(** [!s] is true of a missing field and of the empty string. *)
Definition truthy_string (s : option string) : bool :=
  match s with
  | None => false
  | Some s => negb (String.eqb s EmptyString)
  end.

(** [!n] is true of a missing field and of the number zero. *)
Definition truthy_number (n : option Z) : bool :=
  match n with
  | None => false
  | Some n => negb (n =? 0)
  end.

(** [n || 0] on a number. *)
Definition or_zero (n : Z) : Z := if n =? 0 then 0 else n.

(** The double nearest to the integer [x]: [x] itself up to 2^53 in
    magnitude; beyond, [x] rounded to 53 significant bits, a tie going to
    the even significand. *)
Definition round (x : Z) : Z :=
  let a := Z.abs x in
  if a <=? 2 ^ 53 then x
  else
    let e := Z.log2 a - 52 in
    let q := a / 2 ^ e in
    let r := a mod 2 ^ e in
    let half := 2 ^ (e - 1) in
    let q' := if (half <? r) || ((r =? half) && Z.odd q) then q + 1 else q in
    Z.sgn x * (q' * 2 ^ e).

(** [a + b] and [a - b] on numbers. *)
Definition add (a b : Z) : Z := round (a + b).
Definition sub (a b : Z) : Z := round (a - b).

(** The integer [n] is a finite double: rounding leaves it as it is, and it
    is below 2^1024 in magnitude. *)
Definition representable (n : Z) : Prop := round n = n /\ Z.abs n < 2 ^ 1024.

(** [n.toString()] on an integer up to 2^53 in magnitude: its decimal
    digits. *)
Definition toString (n : Z) : string := pretty n.

End JS.

(** ** The document store *)

Module Firestore.

(** A document of the collection: [{ balance: n }]. *)
Record doc := Doc { doc_balance : Z }.

(** [ref.get()]: the snapshot, with [exists] its [is_Some]. *)
Definition get (db : gmap string doc) (ref : string) : option doc := db !! ref.

(** [ref.set(d)] creates or overwrites. *)
Definition set (db : gmap string doc) (ref : string) (d : doc) : gmap string doc :=
  <[ref := d]> db.

(** [ref.update(d)] rejects when the document does not exist. *)
Definition update (db : gmap string doc) (ref : string) (d : doc)
  : option (gmap string doc) :=
  match db !! ref with
  | Some _ => Some (<[ref := d]> db)
  | None => None
  end.

(** [batch.delete(ref)]. *)
Definition batch_delete (db : gmap string doc) (ref : string) : gmap string doc :=
  delete ref db.

(** *** Transactions

    The body of [db.runTransaction] reads the store as it was when the
    transaction started and queues its writes; the queue is applied in
    order when the body returns, and dropped whole when the body throws
    or a queued write is rejected. *)

Inductive write :=
| WSet (ref : string) (d : doc)
| WUpdate (ref : string) (d : doc).

Inductive completion (A : Type) :=
| Returned (a : A)
| Thrown (message : string).
Arguments Returned {A} a.
Arguments Thrown {A} message.

Definition tx (A : Type) : Type :=
  gmap string doc -> list write -> completion A * list write.

#[global] Instance tx_ret : MRet tx := fun A a _ ws => (Returned a, ws).

#[global] Instance tx_bind : MBind tx := fun A B k m db ws =>
  match m db ws with
  | (Returned a, ws') => k a db ws'
  | (Thrown e, ws') => (Thrown e, ws')
  end.

Definition throw {A : Type} (message : string) : tx A :=
  fun _ ws => (Thrown message, ws).

Definition tx_get (ref : string) : tx (option doc) :=
  fun db ws => (Returned (db !! ref), ws).

Definition tx_set (ref : string) (d : doc) : tx unit :=
  fun _ ws => (Returned tt, ws ++ [WSet ref d]).

Definition tx_update (ref : string) (d : doc) : tx unit :=
  fun _ ws => (Returned tt, ws ++ [WUpdate ref d]).

Definition apply_write (db : gmap string doc) (w : write)
  : option (gmap string doc) :=
  match w with
  | WSet ref d => Some (set db ref d)
  | WUpdate ref d => update db ref d
  end.

Fixpoint commit (db : gmap string doc) (ws : list write)
  : option (gmap string doc) :=
  match ws with
  | [] => Some db
  | w :: ws' =>
      match apply_write db w with
      | Some db' => commit db' ws'
      | None => None
      end
  end.

Definition commit_failed : string := "NOT_FOUND".

Definition runTransaction {A : Type} (body : tx A) (db : gmap string doc)
  : completion A * gmap string doc :=
  match body db [] with
  | (Returned a, ws) =>
      match commit db ws with
      | Some db' => (Returned a, db')
      | None => (Thrown commit_failed, db)
      end
  | (Thrown e, _) => (Thrown e, db)
  end.

(** *** Document paths *)

(** [s.split('/')]: the pieces of [s] between the slashes, empty ones
    included. *)
Fixpoint split_slash (s : string) : list string :=
  match s with
  | EmptyString => [EmptyString]
  | String c rest =>
      if Ascii.eqb c "/"%char then EmptyString :: split_slash rest
      else
        match split_slash rest with
        | seg :: segs => String c seg :: segs
        | [] => [String c EmptyString]
        end
  end.

(** [s.indexOf('//') >= 0] *)
Fixpoint has_double_slash (s : string) : bool :=
  match s with
  | EmptyString => false
  | String c rest =>
      match rest with
      | EmptyString => false
      | String c' _ =>
          (Ascii.eqb c "/"%char && Ascii.eqb c' "/"%char) || has_double_slash rest
      end
  end.

Definition nonempty (segment : string) : bool :=
  negb (String.eqb segment EmptyString).

(** The segments of a relative path: the non-empty pieces. *)
Definition segments_of (relativePath : string) : list string :=
  List.filter nonempty (split_slash relativePath).

(** A path written out, its segments separated by slashes. *)
Fixpoint join_slash (segments : list string) : string :=
  match segments with
  | [] => EmptyString
  | segment :: rest =>
      match rest with
      | [] => segment
      | _ :: _ => String.append segment (String "/"%char (join_slash rest))
      end
  end.

(** [s.indexOf('/') >= 0] *)
Fixpoint has_slash (s : string) : bool :=
  match s with
  | EmptyString => false
  | String c rest => Ascii.eqb c "/"%char || has_slash rest
  end.

(** The documents of the collection itself: their path has one segment. *)
Definition in_collection (ref : string) : bool := negb (has_slash ref).

End Firestore.

Import Firestore.

(** [const accounts = db.collection("accounts")] *)
Module accounts.

(** [accounts.doc(documentPath)]: the reference of the document, as its
    path below the collection; [None] when the client throws: for the empty
    string, for a path with two slashes in a row, and for a path that with
    the collection's own segment has an odd number of segments. *)
Definition doc (documentPath : string) : option string :=
  if String.eqb documentPath EmptyString || has_double_slash documentPath then None
  else
    let segments := segments_of documentPath in
    if Nat.even (length segments) then None
    else Some (join_slash segments).

End accounts.

(** The text of the error the client throws for a path that names no
    document; the handlers only tell it from their own two sentinels. *)
Definition not_a_document_path : string :=
  "Value for argument documentPath must point to a document.".

(** [accounts.doc(documentPath)] inside the body of a transaction. *)
Definition tx_doc (documentPath : string) : tx string :=
  match accounts.doc documentPath with
  | Some ref => mret ref
  | None => throw not_a_document_path
  end.

(** ** Requests and replies *)

Record request := Request {
  method : string;
  query_account_id : option string;
  body_type : option string;
  body_origin : option string;
  body_destination : option string;
  body_amount : option Z
}.

(** [{ id: ..., balance: ... }] *)
Record account_view := AccountView { id : string; balance : Z }.

Inductive payload :=
| Text (s : string)
| StatusObj (status : string)
| EventObj (origin destination : option account_view).

(** What the handler sent.  [Unhandled] stands for a handler whose promise
    rejected before anything was sent (a throw or an [await] outside a
    [try]). *)
Inductive reply :=
| Reply (status : Z) (body : payload)
| Unhandled.

(** [response.send(b)] without [status] answers 200. *)
Definition send (b : payload) : reply := Reply 200 b.

Definition is_method (req : request) (m : string) : bool := String.eqb (method req) m.

Definition is_type (req : request) (t : string) : bool :=
  match body_type req with
  | Some t' => String.eqb t' t
  | None => false
  end.

(** ** The handlers *)

(** *** The branches of [exports.event]

    Each is the code of one branch after its presence check. *)

(** The deposit branch of [exports.event], after the presence check. *)
Definition deposit (destination : string) (amount : Z) (db : gmap string doc)
  : reply * gmap string doc :=
  match accounts.doc destination with
  | None => (Unhandled, db)
  | Some accountRef =>
      match get db accountRef with
      | None =>
          (Reply 201 (EventObj None (Some (AccountView destination amount))),
           set db accountRef (Doc amount))
      | Some d =>
          let currentBalance := JS.or_zero (doc_balance d) in
          let newBalance := JS.add currentBalance amount in
          match update db accountRef (Doc newBalance) with
          | Some db' =>
              (Reply 201 (EventObj None (Some (AccountView destination newBalance))),
               db')
          | None => (Unhandled, db)
          end
      end
  end.

(** The withdraw branch of [exports.event], after the presence check. *)
Definition withdraw (origin : string) (amount : Z) (db : gmap string doc)
  : reply * gmap string doc :=
  match accounts.doc origin with
  | None => (Unhandled, db)
  | Some accountRef =>
      match get db accountRef with
      | None => (Reply 404 (Text "0"), db)
      | Some d =>
          let currentBalance := JS.or_zero (doc_balance d) in
          if currentBalance <? amount then
            (Reply 400 (StatusObj "Insufficient funds."), db)
          else
            let newBalance := JS.sub currentBalance amount in
            match update db accountRef (Doc newBalance) with
            | Some db' =>
                (Reply 201 (EventObj (Some (AccountView origin newBalance)) None),
                 db')
            | None => (Unhandled, db)
            end
      end
  end.

(** The function passed to [db.runTransaction] by the transfer branch. *)
Definition transfer_body (origin : string) (amount : Z) (destination : string)
  : tx payload :=
  originRef ← tx_doc origin;
  destinationRef ← tx_doc destination;
  originDoc ← tx_get originRef;
  destinationDoc ← tx_get destinationRef;
  match originDoc with
  | None => throw "ORIGIN_NOT_FOUND"
  | Some od =>
      let originBalance := JS.or_zero (doc_balance od) in
      if originBalance <? amount then throw "INSUFFICIENT_FUNDS"
      else
        destinationDoc' ←
          match destinationDoc with
          | None => _ ← tx_set destinationRef (Doc 0); mret (Doc 0)
          | Some dd => mret dd
          end;
        let destinationBalance := JS.or_zero (doc_balance destinationDoc') in
        let newOriginBalance := JS.sub originBalance amount in
        let newDestinationBalance := JS.add destinationBalance amount in
        _ ← tx_update originRef (Doc newOriginBalance);
        _ ← tx_update destinationRef (Doc newDestinationBalance);
        mret (EventObj (Some (AccountView origin newOriginBalance))
                       (Some (AccountView destination newDestinationBalance)))
  end.

(** The transfer branch of [exports.event], after the presence check: the
    transaction and the [catch] that maps what it threw to a reply. *)
Definition transfer (origin : string) (amount : Z) (destination : string)
    (db : gmap string doc) : reply * gmap string doc :=
  match runTransaction (transfer_body origin amount destination) db with
  | (Returned result, db') => (Reply 201 result, db')
  | (Thrown message, db') =>
      if String.eqb message "ORIGIN_NOT_FOUND" then (Reply 404 (Text "0"), db')
      else if String.eqb message "INSUFFICIENT_FUNDS" then
        (Reply 400 (StatusObj "Insufficient funds."), db')
      else (Reply 500 (StatusObj "Transaction failed."), db')
  end.

(** [module.exports] of [functions/index.js]. *)
Module exports.

(** [exports.reset] *)
Definition reset (req : request) (db : gmap string doc) : reply * gmap string doc :=
  if negb (is_method req "POST") then
    (Reply 405 (StatusObj "Method Not Allowed."), db)
  else
    let snapshot := map_to_list (filter (fun kv => in_collection (fst kv) = true) db) in
    (send (Text "OK"), foldl (fun acc kv => batch_delete acc (fst kv)) db snapshot).

(** [exports.balance] *)
Definition balance (req : request) (db : gmap string doc)
  : reply * gmap string doc :=
  if negb (is_method req "GET") then
    (Reply 405 (StatusObj "Method Not Allowed."), db)
  else
    if negb (JS.truthy_string (query_account_id req)) then
      (Reply 400 (StatusObj "Missing account ID."), db)
    else
      match query_account_id req with
      | None => (Reply 400 (StatusObj "Missing account ID."), db)
      | Some account_id =>
          match accounts.doc account_id with
          | None => (Unhandled, db)
          | Some accountRef =>
              match get db accountRef with
              | None => (Reply 404 (Text "0"), db)
              | Some d => (send (Text (JS.toString (doc_balance d))), db)
              end
          end
      end.

(** [exports.event] *)
Definition event (req : request) (db : gmap string doc) : reply * gmap string doc :=
  if negb (is_method req "POST") then
    (Reply 405 (StatusObj "Method Not Allowed."), db)
  else if is_type req "deposit" then
    if negb (JS.truthy_string (body_destination req))
       || negb (JS.truthy_number (body_amount req))
    then (Reply 400 (StatusObj "Missing destination or amount."), db)
    else
      match body_destination req, body_amount req with
      | Some destination, Some amount => deposit destination amount db
      | _, _ => (Reply 400 (StatusObj "Missing destination or amount."), db)
      end
  else if is_type req "withdraw" then
    if negb (JS.truthy_string (body_origin req))
       || negb (JS.truthy_number (body_amount req))
    then (Reply 400 (StatusObj "Missing origin or amount."), db)
    else
      match body_origin req, body_amount req with
      | Some origin, Some amount => withdraw origin amount db
      | _, _ => (Reply 400 (StatusObj "Missing origin or amount."), db)
      end
  else if is_type req "transfer" then
    if negb (JS.truthy_string (body_origin req))
       || negb (JS.truthy_number (body_amount req))
       || negb (JS.truthy_string (body_destination req))
    then (Reply 400 (StatusObj "Missing origin, amount, or destination."), db)
    else
      match body_origin req, body_amount req, body_destination req with
      | Some origin, Some amount, Some destination =>
          transfer origin amount destination db
      | _, _, _ =>
          (Reply 400 (StatusObj "Missing origin, amount, or destination."), db)
      end
  else
    (Reply 400 (StatusObj "Invalid event type."), db).

End exports.

(** ** Vocabulary of the properties *)

(** The balance an account shows: an account that does not exist counts
    as 0. *)
Definition stored_balance (db : gmap string doc) (account : string) : Z :=
  match db !! account with
  | Some d => doc_balance d
  | None => 0
  end.

(** The sum of all balances of the store. *)
Definition total_balance (db : gmap string doc) : Z :=
  map_fold (fun _ d acc => doc_balance d + acc) 0 db.

(** A reply with a 2xx status. *)
Definition is_success (r : reply) : bool :=
  match r with
  | Reply status _ => (200 <=? status) && (status <=? 299)
  | Unhandled => false
  end.

(** [req] is a POST to [event] carrying the fields of a deposit. *)
Definition deposit_event (req : request) (destination : string) (amount : Z) : Prop :=
  method req = "POST" /\ body_type req = Some "deposit" /\
  body_destination req = Some destination /\ body_amount req = Some amount.

(** [req] is a POST to [event] carrying the fields of a withdraw. *)
Definition withdraw_event (req : request) (origin : string) (amount : Z) : Prop :=
  method req = "POST" /\ body_type req = Some "withdraw" /\
  body_origin req = Some origin /\ body_amount req = Some amount.

(** [req] is a POST to [event] carrying the fields of a transfer. *)
Definition transfer_event (req : request) (origin : string) (amount : Z)
    (destination : string) : Prop :=
  method req = "POST" /\ body_type req = Some "transfer" /\
  body_origin req = Some origin /\ body_amount req = Some amount /\
  body_destination req = Some destination.

(** [req] is a GET to [balance] carrying [account_id]. *)
Definition balance_query (req : request) (account_id : string) : Prop :=
  method req = "GET" /\ query_account_id req = Some account_id.

(** The documents of the store outside the collection: those of
    subcollections, which [reset] does not list. *)
Definition outside_collection (db : gmap string doc) : gmap string doc :=
  filter (fun kv => in_collection (fst kv) <> true) db.

(** ** Requests and stores used in the examples *)

Definition post_deposit (destination : string) (amount : Z) : request :=
  Request "POST" None (Some "deposit") None (Some destination) (Some amount).

Definition post_withdraw (origin : string) (amount : Z) : request :=
  Request "POST" None (Some "withdraw") (Some origin) None (Some amount).

Definition post_transfer (origin : string) (amount : Z) (destination : string)
  : request :=
  Request "POST" None (Some "transfer") (Some origin) (Some destination) (Some amount).

Definition get_balance (account_id : string) : request :=
  Request "GET" (Some account_id) None None None None.

Definition post_reset : request := Request "POST" None None None None None.

Definition alice_has (n : Z) : gmap string doc := {["alice" := Doc n]}.

Definition alice_bob_have (n m : Z) : gmap string doc :=
  <["bob" := Doc m]> (alice_has n).

(** ** Runs of requests and invariants of the store *)

(** The store after a run of requests sent to [event] one after the other,
    each on the store the one before it left. *)
Definition events (reqs : list request) (db : gmap string doc) : gmap string doc :=
  foldl (fun acc req => snd (exports.event req acc)) db reqs.

(** The amount of the request, when it has one, is not negative. *)
Definition amount_not_negative (req : request) : Prop :=
  forall amount, body_amount req = Some amount -> 0 <= amount.


Definition carol_joins (db : gmap string doc) (n : Z) : gmap string doc :=
  <["carol" := Doc n]> db.

(** ** JavaScript arithmetic *)

Lemma or_zero_id (n : Z) : JS.or_zero n = n.
Proof. unfold JS.or_zero. destruct (Z.eqb_spec n 0); congruence. Qed.

Lemma truthy_nonempty (s : string) :
  s <> EmptyString -> JS.truthy_string (Some s) = true.
Proof. intros Hs. cbn. apply String.eqb_neq in Hs. rewrite Hs. reflexivity. Qed.

Lemma truthy_nonzero (n : Z) : n <> 0 -> JS.truthy_number (Some n) = true.
Proof. intros Hn. cbn. apply Z.eqb_neq in Hn. rewrite Hn. reflexivity. Qed.

Lemma falsy_zero : JS.truthy_number (Some 0) = false.
Proof. reflexivity. Qed.

(** Up to 2^53 in magnitude every integer is a double. *)
Lemma small_is_representable (n : Z) :
  - 2 ^ 53 <= n <= 2 ^ 53 -> JS.representable n.
Proof.
  intros Hn. unfold JS.representable, JS.round. split.
  - destruct (Z.leb_spec (Z.abs n) (2 ^ 53)); [reflexivity | lia].
  - apply Z.le_lt_trans with (2 ^ 53); [lia|].
    apply Z.pow_lt_mono_r; lia.
Qed.

(** Rounding never turns a non-negative number into a negative one. *)
Lemma round_nonnegative (x : Z) : 0 <= x -> 0 <= JS.round x.
Proof.
  intros Hx. unfold JS.round.
  destruct (Z.leb_spec (Z.abs x) (2 ^ 53)) as [_|Hbig]; [exact Hx|].
  cbv zeta.
  assert (Hpos : 0 < x) by lia.
  rewrite (Z.sgn_pos x Hpos), Z.mul_1_l.
  set (e := Z.log2 (Z.abs x) - 52).
  assert (Hpow : 0 <= 2 ^ e) by (apply Z.pow_nonneg; lia).
  assert (Hq : 0 <= Z.abs x / 2 ^ e) by (apply Z_div_nonneg_nonneg; lia).
  destruct (_ || _); apply Z.mul_nonneg_nonneg; lia.
Qed.

Lemma add_representable (a b : Z) :
  JS.representable (a + b) -> JS.add a b = a + b.
Proof. intros [H _]. exact H. Qed.

Lemma sub_representable (a b : Z) :
  JS.representable (a - b) -> JS.sub a b = a - b.
Proof. intros [H _]. exact H. Qed.

(** ** Document paths *)

(** A path that names a document is not the empty string. *)
Lemma doc_path_nonempty (documentPath ref : string) :
  accounts.doc documentPath = Some ref -> documentPath <> EmptyString.
Proof. intros H ->. discriminate. Qed.


Lemma doc_truthy (documentPath ref : string) :
  accounts.doc documentPath = Some ref ->
  JS.truthy_string (Some documentPath) = true.
Proof. intros H. eapply truthy_nonempty, doc_path_nonempty, H. Qed.

(** ** Dispatch of [event] *)

Lemma event_deposit_accepted req db destination amount :
  deposit_event req destination amount ->
  destination <> EmptyString -> amount <> 0 ->
  exports.event req db = deposit destination amount db.
Proof.
  intros (Hm & Ht & Hd & Ha) Hid Hamt.
  unfold exports.event, is_method, is_type. rewrite Hm, Ht, Hd, Ha.
  rewrite (truthy_nonempty _ Hid), (truthy_nonzero _ Hamt). reflexivity.
Qed.

Lemma event_withdraw_accepted req db origin amount :
  withdraw_event req origin amount -> origin <> EmptyString -> amount <> 0 ->
  exports.event req db = withdraw origin amount db.
Proof.
  intros (Hm & Ht & Ho & Ha) Hid Hamt.
  unfold exports.event, is_method, is_type. rewrite Hm, Ht, Ho, Ha.
  rewrite (truthy_nonempty _ Hid), (truthy_nonzero _ Hamt). reflexivity.
Qed.

Lemma event_transfer_accepted req db origin amount destination :
  transfer_event req origin amount destination ->
  origin <> EmptyString -> destination <> EmptyString -> amount <> 0 ->
  exports.event req db = transfer origin amount destination db.
Proof.
  intros (Hm & Ht & Ho & Ha & Hd) Hido Hidd Hamt.
  unfold exports.event, is_method, is_type. rewrite Hm, Ht, Ho, Ha, Hd.
  rewrite (truthy_nonempty _ Hido), (truthy_nonempty _ Hidd), (truthy_nonzero _ Hamt).
  reflexivity.
Qed.

(** ** The transfer transaction *)

(** An origin or a destination that is not the path of a document makes
    [accounts.doc] throw inside the transaction: nothing is read or
    written, and the [catch] answers 500. *)
Lemma transfer_not_a_document db origin amount destination :
  accounts.doc origin = None \/ accounts.doc destination = None ->
  transfer origin amount destination db =
  (Reply 500 (StatusObj "Transaction failed."), db).
Proof.
  intros Hbad. unfold transfer, runTransaction, transfer_body.
  unfold mbind, tx_bind, tx_doc.
  destruct (accounts.doc origin) as [oref|]; [|reflexivity].
  destruct Hbad as [Hbad | ->]; [discriminate | reflexivity].
Qed.

Lemma transfer_origin_missing db origin amount destination oref dref :
  accounts.doc origin = Some oref -> accounts.doc destination = Some dref ->
  db !! oref = None ->
  transfer origin amount destination db = (Reply 404 (Text "0"), db).
Proof.
  intros Hor Hdr Ho. unfold transfer, runTransaction, transfer_body.
  unfold mbind, tx_bind, tx_doc, tx_get. rewrite Hor, Hdr.
  unfold mret, tx_ret. rewrite Ho. reflexivity.
Qed.

Lemma transfer_insufficient db origin amount destination oref dref od :
  accounts.doc origin = Some oref -> accounts.doc destination = Some dref ->
  db !! oref = Some od -> doc_balance od < amount ->
  transfer origin amount destination db =
  (Reply 400 (StatusObj "Insufficient funds."), db).
Proof.
  intros Hor Hdr Ho Hlt. unfold transfer, runTransaction, transfer_body.
  unfold mbind, tx_bind, tx_doc, tx_get. rewrite Hor, Hdr.
  unfold mret, tx_ret. rewrite Ho, or_zero_id.
  apply Z.ltb_lt in Hlt. rewrite Hlt. reflexivity.
Qed.

Lemma transfer_body_new_destination db origin amount destination oref dref B :
  accounts.doc origin = Some oref -> accounts.doc destination = Some dref ->
  db !! oref = Some (Doc B) -> amount <= B -> db !! dref = None ->
  transfer_body origin amount destination db [] =
  (Returned (EventObj (Some (AccountView origin (JS.sub B amount)))
                      (Some (AccountView destination (JS.add 0 amount)))),
   [WSet dref (Doc 0); WUpdate oref (Doc (JS.sub B amount));
    WUpdate dref (Doc (JS.add 0 amount))]).
Proof.
  intros Hor Hdr Ho Hle Hd. unfold transfer_body.
  unfold mbind, tx_bind, tx_doc, tx_get. rewrite Hor, Hdr.
  unfold mret, tx_ret. rewrite Ho, Hd. cbn [doc_balance].
  rewrite or_zero_id. apply Z.ltb_ge in Hle. rewrite Hle.
  unfold tx_set, tx_update. cbn [doc_balance app].
  rewrite ?or_zero_id. reflexivity.
Qed.

Lemma transfer_body_existing_destination
    db origin amount destination oref dref B D :
  accounts.doc origin = Some oref -> accounts.doc destination = Some dref ->
  db !! oref = Some (Doc B) -> amount <= B -> db !! dref = Some (Doc D) ->
  transfer_body origin amount destination db [] =
  (Returned (EventObj (Some (AccountView origin (JS.sub B amount)))
                      (Some (AccountView destination (JS.add D amount)))),
   [WUpdate oref (Doc (JS.sub B amount)); WUpdate dref (Doc (JS.add D amount))]).
Proof.
  intros Hor Hdr Ho Hle Hd. unfold transfer_body.
  unfold mbind, tx_bind, tx_doc, tx_get. rewrite Hor, Hdr.
  unfold mret, tx_ret. rewrite Ho, Hd. cbn [doc_balance].
  rewrite or_zero_id. apply Z.ltb_ge in Hle. rewrite Hle.
  unfold tx_set, tx_update. cbn [doc_balance app].
  rewrite ?or_zero_id. reflexivity.
Qed.

(** A transfer whose origin can pay: both writes are committed, the
    destination's last.  When origin and destination name one document the
    second [update] overwrites the first. *)
Lemma transfer_existing_destination db origin amount destination oref dref B D :
  accounts.doc origin = Some oref -> accounts.doc destination = Some dref ->
  db !! oref = Some (Doc B) -> amount <= B -> db !! dref = Some (Doc D) ->
  transfer origin amount destination db =
  (Reply 201 (EventObj (Some (AccountView origin (JS.sub B amount)))
                       (Some (AccountView destination (JS.add D amount)))),
   <[dref := Doc (JS.add D amount)]> (<[oref := Doc (JS.sub B amount)]> db)).
Proof.
  intros Hor Hdr Ho Hle Hd. unfold transfer, runTransaction.
  rewrite (transfer_body_existing_destination
             db origin amount destination oref dref B D) by assumption.
  cbn [commit apply_write]. unfold update. rewrite Ho.
  destruct (decide (oref = dref)) as [->|Hne].
  - rewrite lookup_insert_eq. reflexivity.
  - rewrite lookup_insert_ne, Hd by assumption. reflexivity.
Qed.

Lemma transfer_new_destination db origin amount destination oref dref B :
  accounts.doc origin = Some oref -> accounts.doc destination = Some dref ->
  db !! oref = Some (Doc B) -> amount <= B -> db !! dref = None ->
  transfer origin amount destination db =
  (Reply 201 (EventObj (Some (AccountView origin (JS.sub B amount)))
                       (Some (AccountView destination (JS.add 0 amount)))),
   <[dref := Doc (JS.add 0 amount)]> (<[oref := Doc (JS.sub B amount)]> db)).
Proof.
  intros Hor Hdr Ho Hle Hd. unfold transfer, runTransaction.
  rewrite (transfer_body_new_destination db origin amount destination oref dref B)
    by assumption.
  assert (Hne : dref <> oref) by congruence.
  cbn [commit apply_write]. unfold update, set.
  rewrite lookup_insert_ne, Ho by assumption.
  rewrite lookup_insert_ne, lookup_insert_eq by congruence.
  rewrite (insert_insert_ne _ oref dref) by congruence.
  rewrite insert_insert_eq. reflexivity.
Qed.

(** ** Balances of a store *)

Lemma stored_balance_insert_eq db account d :
  stored_balance (<[account := d]> db) account = doc_balance d.
Proof. unfold stored_balance. rewrite lookup_insert_eq. reflexivity. Qed.

Lemma stored_balance_insert_ne db account other d :
  other <> account ->
  stored_balance (<[other := d]> db) account = stored_balance db account.
Proof. intros Hne. unfold stored_balance. rewrite lookup_insert_ne by assumption. reflexivity. Qed.

Lemma stored_balance_lookup db account B :
  db !! account = Some (Doc B) -> stored_balance db account = B.
Proof. intros H. unfold stored_balance. rewrite H. reflexivity. Qed.

Lemma total_balance_insert_fresh db account d :
  db !! account = None ->
  total_balance (<[account := d]> db) = doc_balance d + total_balance db.
Proof.
  intros Hfresh. unfold total_balance.
  rewrite map_fold_insert_L; [reflexivity | intros; lia | assumption].
Qed.

Lemma total_balance_insert_existing db account d0 d :
  db !! account = Some d0 ->
  total_balance (<[account := d]> db) =
  total_balance db - doc_balance d0 + doc_balance d.
Proof.
  intros Hd0.
  rewrite <- (insert_delete_id db account d0) at 2 by assumption.
  rewrite <- (insert_delete_eq db account d).
  rewrite !total_balance_insert_fresh by apply lookup_delete_eq. lia.
Qed.

Lemma total_balance_insert db account d :
  total_balance (<[account := d]> db) =
  total_balance db - stored_balance db account + doc_balance d.
Proof.
  unfold stored_balance. destruct (db !! account) as [d0|] eqn:Hd0.
  - apply total_balance_insert_existing, Hd0.
  - rewrite total_balance_insert_fresh by assumption. lia.
Qed.

(** ** Outcomes of the three branches *)

(** The deposit branch sends nothing when the destination is not the path
    of a document, and otherwise answers 201: it credits the balance the
    destination shows, and creates with the amount one that does not
    exist. *)
Lemma deposit_outcome destination amount db :
  (accounts.doc destination = None /\
   deposit destination amount db = (Unhandled, db)) \/
  (exists ref, accounts.doc destination = Some ref /\ db !! ref = None /\
   deposit destination amount db =
     (Reply 201 (EventObj None (Some (AccountView destination amount))),
      <[ref := Doc amount]> db)) \/
  (exists ref B, accounts.doc destination = Some ref /\
   db !! ref = Some (Doc B) /\
   deposit destination amount db =
     (Reply 201 (EventObj None (Some (AccountView destination (JS.add B amount)))),
      <[ref := Doc (JS.add B amount)]> db)).
Proof.
  unfold deposit, get, update, set.
  destruct (accounts.doc destination) as [ref|]; [|left; split; reflexivity].
  right. destruct (db !! ref) as [[B]|] eqn:Hd.
  - right. exists ref, B. cbn [doc_balance]. rewrite or_zero_id.
    repeat split; first [assumption | reflexivity].
  - left. exists ref. repeat split; first [assumption | reflexivity].
Qed.

(** The withdraw branch sends nothing when the origin is not the path of a
    document; it answers 404 for a missing origin, 400 for one that holds
    too little, both with the store untouched, and 201 otherwise. *)
Lemma withdraw_outcome origin amount db :
  (accounts.doc origin = None /\
   withdraw origin amount db = (Unhandled, db)) \/
  (exists ref, accounts.doc origin = Some ref /\ db !! ref = None /\
   withdraw origin amount db = (Reply 404 (Text "0"), db)) \/
  (exists ref B, accounts.doc origin = Some ref /\
   db !! ref = Some (Doc B) /\ B < amount /\
   withdraw origin amount db =
     (Reply 400 (StatusObj "Insufficient funds."), db)) \/
  (exists ref B, accounts.doc origin = Some ref /\
   db !! ref = Some (Doc B) /\ amount <= B /\
   withdraw origin amount db =
     (Reply 201 (EventObj (Some (AccountView origin (JS.sub B amount))) None),
      <[ref := Doc (JS.sub B amount)]> db)).
Proof.
  unfold withdraw, get, update.
  destruct (accounts.doc origin) as [ref|]; [|left; split; reflexivity].
  right. destruct (db !! ref) as [[B]|] eqn:Ho.
  - right. cbn [doc_balance]. rewrite or_zero_id.
    destruct (Z.ltb_spec B amount).
    + left. exists ref, B. repeat split; first [assumption | reflexivity].
    + right. exists ref, B. repeat split; first [assumption | reflexivity].
  - left. exists ref. repeat split; first [assumption | reflexivity].
Qed.

(** The transfer branch answers 500 when the origin or the destination is
    not the path of a document, 404 for a missing origin, 400 for one that
    holds too little, all with the store untouched, and 201 otherwise, with
    the origin's update applied before the destination's. *)
Lemma transfer_outcome origin amount destination db :
  ((accounts.doc origin = None \/ accounts.doc destination = None) /\
   transfer origin amount destination db =
     (Reply 500 (StatusObj "Transaction failed."), db)) \/
  (exists oref dref,
     accounts.doc origin = Some oref /\ accounts.doc destination = Some dref /\
     ((db !! oref = None /\
       transfer origin amount destination db = (Reply 404 (Text "0"), db)) \/
      (exists B, db !! oref = Some (Doc B) /\ B < amount /\
       transfer origin amount destination db =
         (Reply 400 (StatusObj "Insufficient funds."), db)) \/
      (exists B, db !! oref = Some (Doc B) /\ amount <= B /\
       transfer origin amount destination db =
         (Reply 201 (EventObj
            (Some (AccountView origin (JS.sub B amount)))
            (Some (AccountView destination
                     (JS.add (stored_balance db dref) amount)))),
          <[dref := Doc (JS.add (stored_balance db dref) amount)]>
            (<[oref := Doc (JS.sub B amount)]> db))))).
Proof.
  destruct (accounts.doc origin) as [oref|] eqn:Hor;
    [|left; split; [left; reflexivity
                   | apply transfer_not_a_document; left; exact Hor]].
  destruct (accounts.doc destination) as [dref|] eqn:Hdr;
    [|left; split; [right; reflexivity
                   | apply transfer_not_a_document; right; exact Hdr]].
  right. exists oref, dref. split; [reflexivity|]. split; [reflexivity|].
  destruct (db !! oref) as [[B]|] eqn:Ho;
    [|left; split; [reflexivity
                   | apply (transfer_origin_missing _ _ _ _ oref dref); assumption]].
  right. destruct (Z.lt_ge_cases B amount) as [Hlt|Hge].
  - left. exists B. repeat split; [assumption|].
    apply (transfer_insufficient db origin amount destination oref dref (Doc B));
      assumption.
  - right. exists B. repeat split; [assumption|].
    unfold stored_balance.
    destruct (db !! dref) as [[D]|] eqn:Hd; cbn [doc_balance].
    + apply transfer_existing_destination; assumption.
    + apply transfer_new_destination; assumption.
Qed.

(** ** What [event] does with a request of each type *)

Lemma deposit_type_selects req :
  body_type req = Some "deposit" -> is_type req "deposit" = true.
Proof. unfold is_type. intros ->. reflexivity. Qed.

Lemma withdraw_type_selects req :
  body_type req = Some "withdraw" ->
  is_type req "deposit" = false /\ is_type req "withdraw" = true.
Proof. unfold is_type. intros ->. split; reflexivity. Qed.

Lemma transfer_type_selects req :
  body_type req = Some "transfer" ->
  is_type req "deposit" = false /\ is_type req "withdraw" = false /\
  is_type req "transfer" = true.
Proof. unfold is_type. intros ->. repeat split; reflexivity. Qed.

Lemma truthy_string_inv (f : option string) :
  JS.truthy_string f = true -> exists s, f = Some s /\ s <> EmptyString.
Proof.
  destruct f as [s|]; cbn; [|discriminate].
  intros H. exists s. split; [reflexivity|].
  apply String.eqb_neq. destruct (String.eqb s EmptyString); [discriminate|reflexivity].
Qed.

Lemma truthy_number_inv (f : option Z) :
  JS.truthy_number f = true -> exists n, f = Some n /\ n <> 0.
Proof.
  destruct f as [n|]; cbn; [|discriminate].
  intros H. exists n. split; [reflexivity|].
  destruct (Z.eqb_spec n 0); [discriminate|assumption].
Qed.

Lemma is_type_inv req t : is_type req t = true -> body_type req = Some t.
Proof.
  unfold is_type. destruct (body_type req) as [t'|]; [|discriminate].
  intros H. apply String.eqb_eq in H. congruence.
Qed.

(** Whatever the request, [event] refuses it with the store untouched, or
    it is a deposit, withdraw or transfer whose fields pass the presence
    check and [event] runs that branch on them. *)
Lemma event_cases req db :
  (exists status message,
     exports.event req db = (Reply status (StatusObj message), db) /\
     (status = 400 \/ status = 405)) \/
  (exists destination amount,
     deposit_event req destination amount /\ destination <> EmptyString /\
     amount <> 0 /\ exports.event req db = deposit destination amount db) \/
  (exists origin amount,
     withdraw_event req origin amount /\ origin <> EmptyString /\
     amount <> 0 /\ exports.event req db = withdraw origin amount db) \/
  (exists origin amount destination,
     transfer_event req origin amount destination /\ origin <> EmptyString /\
     destination <> EmptyString /\ amount <> 0 /\
     exports.event req db = transfer origin amount destination db).
Proof.
  unfold exports.event.
  destruct (is_method req "POST") eqn:Hm; cbn [negb];
    [|left; eexists _, _; split; [reflexivity | right; reflexivity]].
  apply String.eqb_eq in Hm.
  destruct (is_type req "deposit") eqn:Htd.
  { apply is_type_inv in Htd.
    destruct (JS.truthy_string (body_destination req)) eqn:Hd; cbn [negb orb];
      [|left; eexists _, _; split; [reflexivity | left; reflexivity]].
    destruct (JS.truthy_number (body_amount req)) eqn:Ha; cbn [negb];
      [|left; eexists _, _; split; [reflexivity | left; reflexivity]].
    apply truthy_string_inv in Hd as (d & Hd & Hidd).
    apply truthy_number_inv in Ha as (a & Ha & Hamt).
    rewrite Hd, Ha. right; left. exists d, a.
    repeat split; assumption. }
  destruct (is_type req "withdraw") eqn:Htw.
  { apply is_type_inv in Htw.
    destruct (JS.truthy_string (body_origin req)) eqn:Ho; cbn [negb orb];
      [|left; eexists _, _; split; [reflexivity | left; reflexivity]].
    destruct (JS.truthy_number (body_amount req)) eqn:Ha; cbn [negb];
      [|left; eexists _, _; split; [reflexivity | left; reflexivity]].
    apply truthy_string_inv in Ho as (o & Ho & Hido).
    apply truthy_number_inv in Ha as (a & Ha & Hamt).
    rewrite Ho, Ha. right; right; left. exists o, a.
    repeat split; assumption. }
  destruct (is_type req "transfer") eqn:Htt;
    [|left; eexists _, _; split; [reflexivity | left; reflexivity]].
  apply is_type_inv in Htt.
  destruct (JS.truthy_string (body_origin req)) eqn:Ho; cbn [negb orb];
    [|left; eexists _, _; split; [reflexivity | left; reflexivity]].
  destruct (JS.truthy_number (body_amount req)) eqn:Ha; cbn [negb orb];
    [|left; eexists _, _; split; [reflexivity | left; reflexivity]].
  destruct (JS.truthy_string (body_destination req)) eqn:Hd; cbn [negb];
    [|left; eexists _, _; split; [reflexivity | left; reflexivity]].
  apply truthy_string_inv in Ho as (o & Ho & Hido).
  apply truthy_number_inv in Ha as (a & Ha & Hamt).
  apply truthy_string_inv in Hd as (d & Hd & Hidd).
  rewrite Ho, Ha, Hd. right; right; right. exists o, a, d.
  repeat split; assumption.
Qed.

(** ** Balances that stay non-negative *)

(** The withdraw branch leaves a non-negative balance non-negative, whatever
    the sign of the amount. *)
Lemma withdraw_keeps_nonnegative origin amount db account :
  0 <= stored_balance db account ->
  0 <= stored_balance (snd (withdraw origin amount db)) account.
Proof.
  intros Hpos.
  destruct (withdraw_outcome origin amount db)
    as [[_ ->] | [(ref & _ & _ & ->) | [(ref & B & _ & _ & _ & ->) |
        (ref & B & _ & _ & Hle & ->)]]]; cbn [snd]; try exact Hpos.
  destruct (decide (ref = account)) as [->|Hne].
  - rewrite stored_balance_insert_eq. cbn [doc_balance].
    apply round_nonnegative. lia.
  - rewrite stored_balance_insert_ne by assumption. exact Hpos.
Qed.

(** The transfer branch with a positive amount leaves a non-negative
    balance non-negative. *)
Lemma transfer_keeps_nonnegative origin amount destination db account :
  0 < amount ->
  0 <= stored_balance db account ->
  0 <= stored_balance (snd (transfer origin amount destination db)) account.
Proof.
  intros Hamt Hpos.
  destruct (transfer_outcome origin amount destination db)
    as [[_ ->] | (oref & dref & _ & _ &
         [[_ ->] | [(B & _ & _ & ->) | (B & _ & Hle & ->)]])];
    cbn [snd]; try exact Hpos.
  destruct (decide (dref = account)) as [->|Hnd].
  - rewrite stored_balance_insert_eq. cbn [doc_balance].
    apply round_nonnegative. lia.
  - rewrite stored_balance_insert_ne by assumption.
    destruct (decide (oref = account)) as [->|Hno].
    + rewrite stored_balance_insert_eq. cbn [doc_balance].
      apply round_nonnegative. lia.
    + rewrite stored_balance_insert_ne by assumption. exact Hpos.
Qed.

(** The transfer branch, whatever the sign of the amount, leaves
    non-negative the balance of every document but the destination's. *)
Lemma transfer_keeps_nonnegative_but_destination
    origin amount destination db account :
  accounts.doc destination <> Some account ->
  0 <= stored_balance db account ->
  0 <= stored_balance (snd (transfer origin amount destination db)) account.
Proof.
  intros Hnd Hpos.
  destruct (transfer_outcome origin amount destination db)
    as [[_ ->] | (oref & dref & _ & Hdr &
         [[_ ->] | [(B & _ & _ & ->) | (B & _ & Hle & ->)]])];
    cbn [snd]; try exact Hpos.
  rewrite stored_balance_insert_ne by congruence.
  destruct (decide (oref = account)) as [->|Hno].
  - rewrite stored_balance_insert_eq. cbn [doc_balance].
    apply round_nonnegative. lia.
  - rewrite stored_balance_insert_ne by assumption. exact Hpos.
Qed.

(** Between two different documents, when both new balances are doubles, a
    transfer moves the amount: what the two hold together is the same
    before and after. *)
Lemma event_transfer_between_distinct_accounts_conserves
    req db origin amount destination oref dref :
  transfer_event req origin amount destination ->
  accounts.doc origin = Some oref -> accounts.doc destination = Some dref ->
  oref <> dref ->
  JS.representable (stored_balance db oref - amount) ->
  JS.representable (stored_balance db dref + amount) ->
  let db' := snd (exports.event req db) in
  stored_balance db' oref + stored_balance db' dref =
  stored_balance db oref + stored_balance db dref.
Proof.
  intros (Hm & Ht & Ho & Ha & Hd) Hor Hdr Hne Hsub Hadd db'. subst db'.
  destruct (event_cases req db)
    as [(st & msg & -> & Hst) | [(d & a & Hev & _ & _ & ->) |
        [(o & a & Hev & _ & _ & ->) | (o & a & d & Hev & _ & _ & _ & ->)]]].
  - reflexivity.
  - destruct Hev as (_ & Ht' & _). congruence.
  - destruct Hev as (_ & Ht' & _). congruence.
  - destruct Hev as (_ & _ & Ho' & Ha' & Hd').
    assert (o = origin) as -> by congruence.
    assert (a = amount) as -> by congruence.
    assert (d = destination) as -> by congruence.
    destruct (transfer_outcome origin amount destination db)
      as [[_ ->] | (oref' & dref' & Hor' & Hdr' &
           [[_ ->] | [(B & _ & _ & ->) | (B & HB & _ & ->)]])];
      cbn [snd]; try reflexivity.
    assert (oref' = oref) as -> by congruence.
    assert (dref' = dref) as -> by congruence.
    rewrite (stored_balance_lookup db oref B HB) in Hsub |- *.
    rewrite stored_balance_insert_eq.
    rewrite stored_balance_insert_ne, stored_balance_insert_eq by congruence.
    cbn [doc_balance].
    rewrite (sub_representable _ _ Hsub), (add_representable _ _ Hadd). lia.
Qed.

(** ** Reset *)

Lemma foldl_batch_delete_lookup (l : list (string * doc)) (db : gmap string doc) k :
  foldl (fun acc kv => batch_delete acc (fst kv)) db l !! k =
  if decide (k ∈ l.*1) then None else db !! k.
Proof.
  revert db. induction l as [|kv l IH]; intros db; cbn [foldl].
  - rewrite decide_False by (cbn; apply not_elem_of_nil). reflexivity.
  - rewrite IH. unfold batch_delete. cbn [fmap list_fmap].
    destruct (decide (k ∈ l.*1)) as [Hin|Hnin].
    + rewrite decide_True by (apply elem_of_cons; right; exact Hin). reflexivity.
    + destruct (decide (kv.1 = k)) as [Heq|Hne].
      * rewrite decide_True by (apply elem_of_cons; left; congruence).
        rewrite Heq. apply lookup_delete_eq.
      * rewrite decide_False
          by (intros [?|?]%elem_of_cons; [congruence | contradiction]).
        apply lookup_delete_ne, Hne.
Qed.

(** A POST to [reset] deletes the documents of the collection and no
    other. *)
Lemma reset_deletes_the_collection req db :
  method req = "POST" ->
  exports.reset req db = (Reply 200 (Text "OK"), outside_collection db).
Proof.
  intros Hm. unfold exports.reset, is_method. rewrite Hm.
  cbn [String.eqb Ascii.eqb Bool.eqb negb].
  unfold send. f_equal. apply map_eq. intros k.
  rewrite foldl_batch_delete_lookup. unfold outside_collection.
  destruct (db !! k) as [d|] eqn:Hk.
  - destruct (in_collection k) eqn:Hin.
    + rewrite decide_True.
      * symmetry. apply map_lookup_filter_None. right.
        intros x _ Hx. cbn in Hx. congruence.
      * apply list_elem_of_fmap. exists (k, d). split; [reflexivity|].
        apply elem_of_map_to_list, map_lookup_filter_Some. split; assumption.
    + rewrite decide_False.
      * symmetry. apply map_lookup_filter_Some. split; [assumption|].
        cbn. congruence.
      * intros ((k' & d') & Heq & Hel)%list_elem_of_fmap. cbn in Heq. subst k'.
        apply elem_of_map_to_list, map_lookup_filter_Some in Hel as [_ Hp].
        cbn in Hp. congruence.
  - destruct (decide _);
      symmetry; apply map_lookup_filter_None; left; assumption.
Qed.

Lemma outside_collection_lookup db ref :
  in_collection ref = true -> outside_collection db !! ref = None.
Proof.
  intros Hin. apply map_lookup_filter_None.
  right. intros x _ Hx. cbn in Hx. congruence.
Qed.

(** The scenario of the specification: deposit 100 to "alice", transfer 40
    to "bob", then try to withdraw 1000 from "alice". *)
Example ledger_scenario :
  let db1 := snd (exports.event (post_deposit "alice" 100) ∅) in
  let r2 := exports.event (post_transfer "alice" 40 "bob") db1 in
  let r3 := exports.event (post_withdraw "alice" 1000) (snd r2) in
  fst (exports.balance (get_balance "alice") db1) = Reply 200 (Text "100") /\
  fst r2 = Reply 201 (EventObj (Some (AccountView "alice" 60))
                               (Some (AccountView "bob" 40))) /\
  fst r3 = Reply 400 (StatusObj "Insufficient funds.") /\
  fst (exports.balance (get_balance "alice") (snd r3)) = Reply 200 (Text "60").
Proof. vm_compute. repeat split; reflexivity. Qed.

(** ** Properties of the service *)

(** C1, at the input where the code departs from it.  A transfer of 40 from
    "alice" to "alice", who holds 100, is answered 201 with origin balance
    60 and destination balance 140, and leaves 140 in the store: origin and
    destination together hold 280 where they held 200, and the collection
    holds 140 where it held 100.  The sum is not conserved when origin and
    destination are one account. *)
Theorem transfer_to_self_breaks_conservation :
  let db := alice_has 100 in
  let db' := snd (exports.event (post_transfer "alice" 40 "alice") db) in
  exports.event (post_transfer "alice" 40 "alice") db =
    (Reply 201 (EventObj (Some (AccountView "alice" 60))
                         (Some (AccountView "alice" 140))),
     alice_has 140) /\
  stored_balance db "alice" + stored_balance db "alice" = 200 /\
  stored_balance db' "alice" + stored_balance db' "alice" = 280 /\
  total_balance db = 100 /\ total_balance db' = 140.
Proof. vm_compute. repeat split; reflexivity. Qed.

(** C2, at the input where the code departs from it.  The presence check
    accepts the amount -5, the funds check looks at the origin only, and the
    transfer of -5 from "alice" (10) to "bob" (3) is answered 201 and leaves
    "bob", whose balance was not negative, with -2. *)
Theorem transfer_of_negative_amount_overdraws_destination :
  exports.event (post_transfer "alice" (-5) "bob") (alice_bob_have 10 3) =
    (Reply 201 (EventObj (Some (AccountView "alice" 15))
                         (Some (AccountView "bob" (-2)))),
     alice_bob_have 15 (-2)) /\
  0 <= stored_balance (alice_bob_have 10 3) "bob" /\
  stored_balance
    (snd (exports.event (post_transfer "alice" (-5) "bob") (alice_bob_have 10 3)))
    "bob" < 0.
Proof.
  split; [vm_compute; reflexivity|].
  split; [vm_compute; discriminate | vm_compute; reflexivity].
Qed.

(** C3.  A transfer whose origin names an account that does not exist, or
    one that holds less than the amount, leaves the store as it was: the
    balances of origin and destination are those before the request, and
    the reply is not a success.  The account the origin names is the
    document [accounts.doc] resolves it to. *)
Theorem failed_transfer_leaves_store_unchanged
    req db origin amount destination :
  transfer_event req origin amount destination ->
  (forall oref, accounts.doc origin = Some oref ->
     db !! oref = None \/
     (exists od, db !! oref = Some od /\ doc_balance od < amount)) ->
  snd (exports.event req db) = db /\
  is_success (fst (exports.event req db)) = false.
Proof.
  intros (Hm & Ht & Ho & Ha & Hd) Hfail.
  destruct (event_cases req db)
    as [(st & msg & -> & Hst) | [(d & a & Hev & _ & _ & ->) |
        [(o & a & Hev & _ & _ & ->) | (o & a & d & Hev & _ & _ & _ & ->)]]].
  - split; [reflexivity|]. cbn. destruct Hst as [-> | ->]; reflexivity.
  - destruct Hev as (_ & Ht' & _). congruence.
  - destruct Hev as (_ & Ht' & _). congruence.
  - destruct Hev as (_ & _ & Ho' & Ha' & Hd').
    assert (o = origin) as -> by congruence.
    assert (a = amount) as -> by congruence.
    assert (d = destination) as -> by congruence.
    destruct (transfer_outcome origin amount destination db)
      as [[_ ->] | (oref & dref & Hor & _ &
           [[_ ->] | [(B & _ & _ & ->) | (B & HB & Hle & _)]])];
      try (split; reflexivity).
    destruct (Hfail oref Hor) as [Hnone | (od & Hsome & Hlt)]; [congruence|].
    assert (od = Doc B) as -> by congruence. cbn in Hlt. lia.
Qed.

Lemma failed_transfer_leaves_store_unchanged_witness :
  transfer_event (post_transfer "alice/" 1000 "bob") "alice/" 1000 "bob" /\
  (forall oref, accounts.doc "alice/" = Some oref ->
     alice_has 60 !! oref = None \/
     (exists od, alice_has 60 !! oref = Some od /\ doc_balance od < 1000)) /\
  snd (exports.event (post_transfer "alice/" 1000 "bob") (alice_has 60)) =
    alice_has 60 /\
  is_success (fst (exports.event (post_transfer "alice/" 1000 "bob") (alice_has 60)))
    = false.
Proof.
  assert (H1 : transfer_event (post_transfer "alice/" 1000 "bob") "alice/" 1000 "bob")
    by (repeat split; reflexivity).
  assert (H2 : forall oref, accounts.doc "alice/" = Some oref ->
             alice_has 60 !! oref = None \/
             (exists od, alice_has 60 !! oref = Some od /\ doc_balance od < 1000)).
  { intros oref Hor. vm_compute in Hor. injection Hor as <-.
    right. exists (Doc 60). split; [reflexivity | cbn; lia]. }
  split; [exact H1|]. split; [exact H2|].
  exact (failed_transfer_leaves_store_unchanged
           (post_transfer "alice/" 1000 "bob") (alice_has 60)
           "alice/" 1000 "bob" H1 H2).
Defined.

(** C4, as amended.  A withdraw of a non-zero amount from an existing
    account whose balance is strictly less than the amount is answered 400
    "Insufficient funds." and leaves the store, and so the origin's
    balance, as it was. *)
Theorem withdraw_insufficient_funds req db origin amount oref B :
  withdraw_event req origin amount -> accounts.doc origin = Some oref ->
  db !! oref = Some (Doc B) -> amount <> 0 -> B < amount ->
  exports.event req db = (Reply 400 (StatusObj "Insufficient funds."), db).
Proof.
  intros Hev Hor Ho Hamt Hlt.
  rewrite (event_withdraw_accepted req db origin amount Hev
             (doc_path_nonempty _ _ Hor) Hamt).
  unfold withdraw, get. rewrite Hor, Ho. cbn [doc_balance]. rewrite or_zero_id.
  apply Z.ltb_lt in Hlt. rewrite Hlt. reflexivity.
Qed.

Lemma withdraw_insufficient_funds_witness :
  withdraw_event (post_withdraw "alice" 1000) "alice" 1000 /\
  accounts.doc "alice" = Some "alice" /\
  alice_has 60 !! "alice" = Some (Doc 60) /\
  1000 <> 0 /\ 60 < 1000 /\
  exports.event (post_withdraw "alice" 1000) (alice_has 60) =
    (Reply 400 (StatusObj "Insufficient funds."), alice_has 60).
Proof.
  assert (H1 : withdraw_event (post_withdraw "alice" 1000) "alice" 1000)
    by (repeat split; reflexivity).
  assert (H2 : accounts.doc "alice" = Some "alice") by reflexivity.
  assert (H3 : alice_has 60 !! "alice" = Some (Doc 60)) by reflexivity.
  assert (H4 : 1000 <> 0) by lia.
  assert (H5 : 60 < 1000) by lia.
  repeat (split; [assumption|]).
  exact (withdraw_insufficient_funds
           (post_withdraw "alice" 1000) (alice_has 60) "alice" 1000 "alice" 60
           H1 H2 H3 H4 H5).
Defined.

(** C4 as stated fails: a deposit of -2 to the empty store leaves "alice"
    with -2; her balance is then strictly less than 0, yet the withdraw of 0
    is answered 400 "Missing origin or amount.", not "Insufficient
    funds.". *)
Lemma withdraw_of_zero_from_negative_balance_is_missing_field :
  snd (exports.event (post_deposit "alice" (-2)) ∅) = alice_has (-2) /\
  withdraw_event (post_withdraw "alice" 0) "alice" 0 /\
  alice_has (-2) !! "alice" = Some (Doc (-2)) /\ -2 < 0 /\
  exports.event (post_withdraw "alice" 0) (alice_has (-2)) =
    (Reply 400 (StatusObj "Missing origin or amount."), alice_has (-2)) /\
  fst (exports.event (post_withdraw "alice" 0) (alice_has (-2))) <>
    Reply 400 (StatusObj "Insufficient funds.").
Proof.
  split; [vm_compute; reflexivity|].
  split; [repeat split; reflexivity|].
  split; [reflexivity|]. split; [lia|].
  split; [vm_compute; reflexivity | vm_compute; discriminate].
Qed.

(** C5, as amended.  A balance query whose account id is the path of a
    document that does not exist is answered with the body "0" under status
    404, and the store is as it was. *)
Theorem balance_of_unknown_account req db account_id ref :
  balance_query req account_id -> accounts.doc account_id = Some ref ->
  db !! ref = None ->
  exports.balance req db = (Reply 404 (Text "0"), db).
Proof.
  intros (Hm & Hq) Hr Hnone.
  unfold exports.balance, is_method. rewrite Hm, Hq.
  rewrite (doc_truthy _ _ Hr), Hr. unfold get. rewrite Hnone. reflexivity.
Qed.

Lemma balance_of_unknown_account_witness :
  balance_query (get_balance "1234") "1234" /\
  accounts.doc "1234" = Some "1234" /\
  (∅ : gmap string doc) !! "1234" = None /\
  exports.balance (get_balance "1234") ∅ = (Reply 404 (Text "0"), ∅).
Proof.
  assert (H1 : balance_query (get_balance "1234") "1234") by (split; reflexivity).
  assert (H2 : accounts.doc "1234" = Some "1234") by reflexivity.
  assert (H3 : (∅ : gmap string doc) !! "1234" = None) by reflexivity.
  repeat (split; [assumption|]).
  exact (balance_of_unknown_account (get_balance "1234") ∅ "1234" "1234" H1 H2 H3).
Defined.

(** C5 as stated fails twice.  The query for "1234" on the empty store gets
    the body "0", but under status 404, which is not a success.  The query
    for "a/b", which names no account either, gets no reply: [accounts.doc]
    throws outside any [try]. *)
Lemma balance_of_unknown_account_is_not_a_success :
  fst (exports.balance (get_balance "1234") ∅) = Reply 404 (Text "0") /\
  is_success (fst (exports.balance (get_balance "1234") ∅)) = false /\
  accounts.doc "a/b" = None /\
  fst (exports.balance (get_balance "a/b") ∅) = Unhandled.
Proof. repeat split; vm_compute; reflexivity. Qed.

(** C6, as amended.  A deposit of a non-zero amount whose destination is
    the path of a document creates it with the amount when it does not
    exist; when it exists with balance [B] and [B + amount] is a double, its
    balance becomes [B + amount].  The reply is 201 with the destination as
    sent and the new balance. *)
Theorem deposit_credits_destination req db destination amount ref :
  deposit_event req destination amount ->
  accounts.doc destination = Some ref -> amount <> 0 ->
  (db !! ref = None ->
   exports.event req db =
     (Reply 201 (EventObj None (Some (AccountView destination amount))),
      <[ref := Doc amount]> db)) /\
  (forall B, db !! ref = Some (Doc B) -> JS.representable (B + amount) ->
   exports.event req db =
     (Reply 201 (EventObj None (Some (AccountView destination (B + amount)))),
      <[ref := Doc (B + amount)]> db)).
Proof.
  intros Hev Hr Hamt.
  rewrite (event_deposit_accepted req db destination amount Hev
             (doc_path_nonempty _ _ Hr) Hamt).
  unfold deposit, get, update, set. rewrite Hr. split.
  - intros ->. reflexivity.
  - intros B -> Hrep. cbn [doc_balance].
    rewrite or_zero_id, (add_representable _ _ Hrep). reflexivity.
Qed.

Lemma deposit_credits_destination_witness :
  deposit_event (post_deposit "alice" 5) "alice" 5 /\
  accounts.doc "alice" = Some "alice" /\ 5 <> 0 /\
  alice_has 100 !! "alice" = Some (Doc 100) /\ JS.representable (100 + 5) /\
  exports.event (post_deposit "alice" 5) (alice_has 100) =
    (Reply 201 (EventObj None (Some (AccountView "alice" (100 + 5)))),
     <["alice" := Doc (100 + 5)]> (alice_has 100)) /\
  ((∅ : gmap string doc) !! "alice" = None ->
   exports.event (post_deposit "alice" 5) ∅ =
     (Reply 201 (EventObj None (Some (AccountView "alice" 5))),
      <["alice" := Doc 5]> ∅)).
Proof.
  assert (H1 : deposit_event (post_deposit "alice" 5) "alice" 5)
    by (repeat split; reflexivity).
  assert (H2 : accounts.doc "alice" = Some "alice") by reflexivity.
  assert (H3 : 5 <> 0) by lia.
  assert (H4 : alice_has 100 !! "alice" = Some (Doc 100)) by reflexivity.
  assert (H5 : JS.representable (100 + 5))
    by (split; vm_compute; reflexivity).
  repeat (split; [assumption|]). split.
  - exact (proj2 (deposit_credits_destination
                    (post_deposit "alice" 5) (alice_has 100) "alice" 5 "alice"
                    H1 H2 H3) 100 H4 H5).
  - exact (proj1 (deposit_credits_destination
                    (post_deposit "alice" 5) ∅ "alice" 5 "alice" H1 H2 H3)).
Defined.

(** C6 as stated fails three times.  The amount 0 is present in the body,
    yet the deposit of 0 to "alice" on the empty store is answered 400 and
    "alice" is not created.  The destination "a/b" is present and names no
    account, yet the deposit of 5 gets no reply and creates nothing.  With
    "alice" at 2^53 the deposit of 1 is answered 201 and leaves 2^53, not
    2^53 + 1. *)
Lemma deposit_of_zero_creates_nothing :
  (deposit_event (post_deposit "alice" 0) "alice" 0 /\
   (∅ : gmap string doc) !! "alice" = None /\
   exports.event (post_deposit "alice" 0) ∅ =
     (Reply 400 (StatusObj "Missing destination or amount."), ∅) /\
   snd (exports.event (post_deposit "alice" 0) ∅) !! "alice" <> Some (Doc 0)) /\
  (deposit_event (post_deposit "a/b" 5) "a/b" 5 /\
   exports.event (post_deposit "a/b" 5) ∅ = (Unhandled, ∅)) /\
  (deposit_event (post_deposit "alice" 1) "alice" 1 /\
   alice_has (2 ^ 53) !! "alice" = Some (Doc (2 ^ 53)) /\
   exports.event (post_deposit "alice" 1) (alice_has (2 ^ 53)) =
     (Reply 201 (EventObj None (Some (AccountView "alice" (2 ^ 53)))),
      alice_has (2 ^ 53)) /\
   2 ^ 53 <> 2 ^ 53 + 1).
Proof.
  split; [|split].
  - split; [repeat split; reflexivity|].
    split; [reflexivity|].
    split; [vm_compute; reflexivity | vm_compute; discriminate].
  - split; [repeat split; reflexivity | vm_compute; reflexivity].
  - split; [repeat split; reflexivity|].
    split; [reflexivity|].
    split; [vm_compute; reflexivity | lia].
Qed.

(** C7, as amended.  A transfer of a non-zero amount from an existing origin
    with balance [B >= amount] to a destination that is the path of a
    document that does not exist is answered 201; the transaction queues the
    creation of the destination and the two updates and commits them
    together; afterwards the destination holds the amount and, [B - amount]
    being a double, the origin holds [B - amount]. *)
Theorem transfer_creates_destination
    req db origin amount destination oref dref B :
  transfer_event req origin amount destination ->
  accounts.doc origin = Some oref -> accounts.doc destination = Some dref ->
  amount <> 0 ->
  db !! oref = Some (Doc B) -> amount <= B -> db !! dref = None ->
  JS.representable amount -> JS.representable (B - amount) ->
  let db' := <[dref := Doc amount]> (<[oref := Doc (B - amount)]> db) in
  let queue := [WSet dref (Doc 0); WUpdate oref (Doc (B - amount));
                WUpdate dref (Doc amount)] in
  exports.event req db =
    (Reply 201 (EventObj (Some (AccountView origin (B - amount)))
                         (Some (AccountView destination amount))), db') /\
  snd (transfer_body origin amount destination db []) = queue /\
  commit db queue = Some db' /\
  db' !! dref = Some (Doc amount) /\
  db' !! oref = Some (Doc (B - amount)).
Proof.
  intros Hev Hor Hdr Hamt Ho Hle Hd Hra Hrs db' queue. subst db' queue.
  assert (Hne : dref <> oref) by congruence.
  assert (Hadd : JS.add 0 amount = amount)
    by (unfold JS.add; rewrite Z.add_0_l; apply Hra).
  rewrite (event_transfer_accepted req db origin amount destination Hev
             (doc_path_nonempty _ _ Hor) (doc_path_nonempty _ _ Hdr) Hamt).
  pose proof (transfer_new_destination
                db origin amount destination oref dref B Hor Hdr Ho Hle Hd) as Htr.
  rewrite Hadd, (sub_representable _ _ Hrs) in Htr.
  split; [exact Htr|].
  unfold transfer, runTransaction in Htr.
  rewrite (transfer_body_new_destination
             db origin amount destination oref dref B Hor Hdr Ho Hle Hd)
    in Htr |- *.
  rewrite Hadd, (sub_representable _ _ Hrs) in Htr |- *.
  split; [reflexivity|].
  split.
  - destruct (commit db _) as [db''|]; [|discriminate]. congruence.
  - split; [apply lookup_insert_eq|].
    rewrite lookup_insert_ne by assumption. apply lookup_insert_eq.
Qed.

Lemma transfer_creates_destination_witness :
  transfer_event (post_transfer "alice" 40 "bob") "alice" 40 "bob" /\
  accounts.doc "alice" = Some "alice" /\ accounts.doc "bob" = Some "bob" /\
  40 <> 0 /\
  alice_has 100 !! "alice" = Some (Doc 100) /\ 40 <= 100 /\
  alice_has 100 !! "bob" = None /\
  JS.representable 40 /\ JS.representable (100 - 40) /\
  exports.event (post_transfer "alice" 40 "bob") (alice_has 100) =
    (Reply 201 (EventObj (Some (AccountView "alice" (100 - 40)))
                         (Some (AccountView "bob" 40))),
     <["bob" := Doc 40]> (<["alice" := Doc (100 - 40)]> (alice_has 100))).
Proof.
  assert (H1 : transfer_event (post_transfer "alice" 40 "bob") "alice" 40 "bob")
    by (repeat split; reflexivity).
  assert (H2 : accounts.doc "alice" = Some "alice") by reflexivity.
  assert (H3 : accounts.doc "bob" = Some "bob") by reflexivity.
  assert (H4 : 40 <> 0) by lia.
  assert (H5 : alice_has 100 !! "alice" = Some (Doc 100)) by reflexivity.
  assert (H6 : 40 <= 100) by lia.
  assert (H7 : alice_has 100 !! "bob" = None) by reflexivity.
  assert (H8 : JS.representable 40)
    by (split; vm_compute; reflexivity).
  assert (H9 : JS.representable (100 - 40))
    by (split; vm_compute; reflexivity).
  repeat (split; [assumption|]).
  exact (proj1 (transfer_creates_destination
                  (post_transfer "alice" 40 "bob") (alice_has 100)
                  "alice" 40 "bob" "alice" "bob" 100
                  H1 H2 H3 H4 H5 H6 H7 H8 H9)).
Defined.

(** C7 as stated fails three times.  "alice" holds 5 >= 0 and "bob" does
    not exist, yet the transfer of 0 is answered 400 and "bob" is not
    created.  The destination "a/b" names no account, yet the transfer of 1
    to it is answered 500 and creates nothing.  With "alice" at 2^53 the
    transfer of -1 to "bob" is answered 201 and leaves "alice" with 2^53,
    not 2^53 + 1. *)
Lemma transfer_of_zero_creates_nothing :
  (transfer_event (post_transfer "alice" 0 "bob") "alice" 0 "bob" /\
   alice_has 5 !! "alice" = Some (Doc 5) /\ 0 <= 5 /\
   alice_has 5 !! "bob" = None /\
   exports.event (post_transfer "alice" 0 "bob") (alice_has 5) =
     (Reply 400 (StatusObj "Missing origin, amount, or destination."),
      alice_has 5) /\
   snd (exports.event (post_transfer "alice" 0 "bob") (alice_has 5)) !! "bob"
     <> Some (Doc 0)) /\
  (transfer_event (post_transfer "alice" 1 "a/b") "alice" 1 "a/b" /\
   alice_has 5 !! "alice" = Some (Doc 5) /\ 1 <= 5 /\
   exports.event (post_transfer "alice" 1 "a/b") (alice_has 5) =
     (Reply 500 (StatusObj "Transaction failed."), alice_has 5)) /\
  (transfer_event (post_transfer "alice" (-1) "bob") "alice" (-1) "bob" /\
   alice_has (2 ^ 53) !! "alice" = Some (Doc (2 ^ 53)) /\ -1 <= 2 ^ 53 /\
   alice_has (2 ^ 53) !! "bob" = None /\
   exports.event (post_transfer "alice" (-1) "bob") (alice_has (2 ^ 53)) =
     (Reply 201 (EventObj (Some (AccountView "alice" (2 ^ 53)))
                          (Some (AccountView "bob" (-1)))),
      alice_bob_have (2 ^ 53) (-1)) /\
   2 ^ 53 <> 2 ^ 53 - (-1)).
Proof.
  split; [|split].
  - split; [repeat split; reflexivity|].
    split; [reflexivity|]. split; [lia|]. split; [reflexivity|].
    split; [vm_compute; reflexivity | vm_compute; discriminate].
  - split; [repeat split; reflexivity|].
    split; [reflexivity|]. split; [lia|]. vm_compute; reflexivity.
  - split; [repeat split; reflexivity|].
    split; [reflexivity|]. split; [lia|]. split; [reflexivity|].
    split; [vm_compute; reflexivity | lia].
Qed.

(** C8, as amended.  A withdraw of a non-zero amount from an existing origin
    with balance [B >= amount], [B - amount] being a double, is answered 201
    with the origin as sent and the balance [B - amount], which is what the
    store then holds for it. *)
Theorem withdraw_debits_origin req db origin amount oref B :
  withdraw_event req origin amount -> accounts.doc origin = Some oref ->
  amount <> 0 ->
  db !! oref = Some (Doc B) -> amount <= B -> JS.representable (B - amount) ->
  exports.event req db =
    (Reply 201 (EventObj (Some (AccountView origin (B - amount))) None),
     <[oref := Doc (B - amount)]> db).
Proof.
  intros Hev Hor Hamt Ho Hle Hrep.
  rewrite (event_withdraw_accepted req db origin amount Hev
             (doc_path_nonempty _ _ Hor) Hamt).
  unfold withdraw, get, update. rewrite Hor, Ho. cbn [doc_balance].
  rewrite or_zero_id.
  apply Z.ltb_ge in Hle. rewrite Hle, (sub_representable _ _ Hrep). reflexivity.
Qed.

Lemma withdraw_debits_origin_witness :
  withdraw_event (post_withdraw "alice" 40) "alice" 40 /\
  accounts.doc "alice" = Some "alice" /\ 40 <> 0 /\
  alice_has 100 !! "alice" = Some (Doc 100) /\ 40 <= 100 /\
  JS.representable (100 - 40) /\
  exports.event (post_withdraw "alice" 40) (alice_has 100) =
    (Reply 201 (EventObj (Some (AccountView "alice" (100 - 40))) None),
     <["alice" := Doc (100 - 40)]> (alice_has 100)).
Proof.
  assert (H1 : withdraw_event (post_withdraw "alice" 40) "alice" 40)
    by (repeat split; reflexivity).
  assert (H2 : accounts.doc "alice" = Some "alice") by reflexivity.
  assert (H3 : 40 <> 0) by lia.
  assert (H4 : alice_has 100 !! "alice" = Some (Doc 100)) by reflexivity.
  assert (H5 : 40 <= 100) by lia.
  assert (H6 : JS.representable (100 - 40))
    by (split; vm_compute; reflexivity).
  repeat (split; [assumption|]).
  exact (withdraw_debits_origin
           (post_withdraw "alice" 40) (alice_has 100) "alice" 40 "alice" 100
           H1 H2 H3 H4 H5 H6).
Defined.

(** C8 as stated fails twice.  "alice" exists with balance 5 and 0 <= 5,
    yet the withdraw of 0 is answered 400 "Missing origin or amount.", not
    201.  With "alice" at 2^53 + 2 the withdraw of 1 is answered 201 and
    leaves 2^53, not 2^53 + 1. *)
Lemma withdraw_of_zero_does_not_succeed :
  (withdraw_event (post_withdraw "alice" 0) "alice" 0 /\
   alice_has 5 !! "alice" = Some (Doc 5) /\ 0 <= 5 /\
   exports.event (post_withdraw "alice" 0) (alice_has 5) =
     (Reply 400 (StatusObj "Missing origin or amount."), alice_has 5) /\
   is_success (fst (exports.event (post_withdraw "alice" 0) (alice_has 5)))
     = false) /\
  (withdraw_event (post_withdraw "alice" 1) "alice" 1 /\
   alice_has (2 ^ 53 + 2) !! "alice" = Some (Doc (2 ^ 53 + 2)) /\
   1 <= 2 ^ 53 + 2 /\
   exports.event (post_withdraw "alice" 1) (alice_has (2 ^ 53 + 2)) =
     (Reply 201 (EventObj (Some (AccountView "alice" (2 ^ 53))) None),
      alice_has (2 ^ 53)) /\
   2 ^ 53 <> 2 ^ 53 + 2 - 1).
Proof.
  split.
  - split; [repeat split; reflexivity|].
    split; [reflexivity|]. split; [lia|].
    split; vm_compute; reflexivity.
  - split; [repeat split; reflexivity|].
    split; [reflexivity|]. split; [lia|].
    split; [vm_compute; reflexivity | lia].
Qed.

(** C9.  A POST to [event] whose amount is present and equal to 0 is
    answered 400 with the missing-field message of its type, deposit,
    withdraw or transfer, and the store is as it was. *)
Theorem zero_amount_is_rejected_as_missing req db :
  method req = "POST" -> body_amount req = Some 0 ->
  (body_type req = Some "deposit" ->
   exports.event req db =
     (Reply 400 (StatusObj "Missing destination or amount."), db)) /\
  (body_type req = Some "withdraw" ->
   exports.event req db =
     (Reply 400 (StatusObj "Missing origin or amount."), db)) /\
  (body_type req = Some "transfer" ->
   exports.event req db =
     (Reply 400 (StatusObj "Missing origin, amount, or destination."), db)).
Proof.
  intros Hm Ha. unfold exports.event, is_method. rewrite Hm, Ha, falsy_zero.
  cbn [String.eqb Ascii.eqb Bool.eqb negb].
  repeat split; intros Ht.
  - rewrite (deposit_type_selects req Ht).
    rewrite orb_true_r. reflexivity.
  - destruct (withdraw_type_selects req Ht) as [-> ->].
    rewrite orb_true_r. reflexivity.
  - destruct (transfer_type_selects req Ht) as (-> & -> & ->).
    rewrite orb_true_r, orb_true_l. reflexivity.
Qed.

Lemma zero_amount_is_rejected_as_missing_witness :
  method (post_transfer "alice" 0 "bob") = "POST" /\
  body_amount (post_transfer "alice" 0 "bob") = Some 0 /\
  exports.event (post_transfer "alice" 0 "bob") (alice_has 100) =
    (Reply 400 (StatusObj "Missing origin, amount, or destination."), alice_has 100).
Proof.
  assert (H1 : method (post_transfer "alice" 0 "bob") = "POST") by reflexivity.
  assert (H2 : body_amount (post_transfer "alice" 0 "bob") = Some 0) by reflexivity.
  repeat (split; [assumption|]).
  exact (proj2 (proj2 (zero_amount_is_rejected_as_missing
                         (post_transfer "alice" 0 "bob") (alice_has 100) H1 H2))
               eq_refl).
Defined.

(** C10, as amended.  A transfer of a non-zero amount whose origin and
    destination name one existing account with balance [B >= amount],
    [B + amount] being a double, is answered 201, reporting the debited
    balance for the origin and [B + amount] for the destination; the
    destination's update is applied last, so the store holds [B + amount]
    for the account and the total of the store grows by the amount. *)
Theorem transfer_to_self_credits_amount req db origin amount destination ref B :
  transfer_event req origin amount destination ->
  accounts.doc origin = Some ref -> accounts.doc destination = Some ref ->
  amount <> 0 ->
  db !! ref = Some (Doc B) -> amount <= B -> JS.representable (B + amount) ->
  (exists debited,
     exports.event req db =
       (Reply 201 (EventObj (Some (AccountView origin debited))
                            (Some (AccountView destination (B + amount)))),
        <[ref := Doc (B + amount)]> db) /\
     (JS.representable (B - amount) -> debited = B - amount)) /\
  commit db (snd (transfer_body origin amount destination db [])) =
    Some (<[ref := Doc (B + amount)]> db) /\
  snd (exports.event req db) !! ref = Some (Doc (B + amount)) /\
  total_balance (snd (exports.event req db)) = total_balance db + amount.
Proof.
  intros Hev Hor Hdr Hamt Ho Hle Hrep.
  rewrite (event_transfer_accepted req db origin amount destination Hev
             (doc_path_nonempty _ _ Hor) (doc_path_nonempty _ _ Hdr) Hamt).
  pose proof (transfer_existing_destination
                db origin amount destination ref ref B B Hor Hdr Ho Hle Ho) as Htr.
  rewrite insert_insert_eq, (add_representable _ _ Hrep) in Htr. rewrite Htr.
  split; [|split; [|split]].
  - exists (JS.sub B amount). split; [reflexivity|]. apply sub_representable.
  - unfold transfer, runTransaction in Htr.
    rewrite (transfer_body_existing_destination
               db origin amount destination ref ref B B Hor Hdr Ho Hle Ho)
      in Htr |- *.
    cbn [snd]. destruct (commit db _) as [db''|]; [|discriminate].
    rewrite (add_representable _ _ Hrep) in Htr. congruence.
  - cbn [snd]. apply lookup_insert_eq.
  - cbn [snd].
    rewrite (total_balance_insert_existing db ref (Doc B)) by assumption.
    cbn [doc_balance]. lia.
Qed.

Lemma transfer_to_self_credits_amount_witness :
  transfer_event (post_transfer "alice" 40 "alice") "alice" 40 "alice" /\
  accounts.doc "alice" = Some "alice" /\ 40 <> 0 /\
  alice_has 100 !! "alice" = Some (Doc 100) /\ 40 <= 100 /\
  JS.representable (100 + 40) /\
  snd (exports.event (post_transfer "alice" 40 "alice") (alice_has 100)) !! "alice" =
    Some (Doc (100 + 40)) /\
  total_balance
    (snd (exports.event (post_transfer "alice" 40 "alice") (alice_has 100))) =
  total_balance (alice_has 100) + 40.
Proof.
  assert (H1 : transfer_event (post_transfer "alice" 40 "alice") "alice" 40 "alice")
    by (repeat split; reflexivity).
  assert (H2 : accounts.doc "alice" = Some "alice") by reflexivity.
  assert (H3 : 40 <> 0) by lia.
  assert (H4 : alice_has 100 !! "alice" = Some (Doc 100)) by reflexivity.
  assert (H5 : 40 <= 100) by lia.
  assert (H6 : JS.representable (100 + 40))
    by (split; vm_compute; reflexivity).
  repeat (split; [assumption|]).
  exact (proj2 (proj2 (transfer_to_self_credits_amount
                         (post_transfer "alice" 40 "alice") (alice_has 100)
                         "alice" 40 "alice" "alice" 100 H1 H2 H2 H3 H4 H5 H6))).
Defined.

(** C10 as stated fails twice.  "alice" exists with balance 5 and 0 <= 5,
    yet the transfer of 0 from "alice" to "alice" is answered 400, not 201.
    With "alice" at 2^53 the transfer of 1 to herself is answered 201 and
    leaves 2^53, not 2^53 + 1: the total does not grow. *)
Lemma transfer_of_zero_to_self_does_not_succeed :
  (transfer_event (post_transfer "alice" 0 "alice") "alice" 0 "alice" /\
   alice_has 5 !! "alice" = Some (Doc 5) /\ 0 <= 5 /\
   exports.event (post_transfer "alice" 0 "alice") (alice_has 5) =
     (Reply 400 (StatusObj "Missing origin, amount, or destination."),
      alice_has 5) /\
   is_success (fst (exports.event (post_transfer "alice" 0 "alice") (alice_has 5)))
     = false) /\
  (transfer_event (post_transfer "alice" 1 "alice") "alice" 1 "alice" /\
   alice_has (2 ^ 53) !! "alice" = Some (Doc (2 ^ 53)) /\ 1 <= 2 ^ 53 /\
   snd (exports.event (post_transfer "alice" 1 "alice") (alice_has (2 ^ 53))) =
     alice_has (2 ^ 53) /\
   is_success
     (fst (exports.event (post_transfer "alice" 1 "alice") (alice_has (2 ^ 53))))
     = true /\
   2 ^ 53 <> 2 ^ 53 + 1).
Proof.
  split.
  - split; [repeat split; reflexivity|].
    split; [reflexivity|]. split; [lia|].
    split; vm_compute; reflexivity.
  - split; [repeat split; reflexivity|].
    split; [reflexivity|]. split; [lia|].
    split; [vm_compute; reflexivity|].
    split; [vm_compute; reflexivity | lia].
Qed.

(** ** Further properties of [event] *)


(** X2.  A request that [event] does not answer with a 2xx status leaves
    the store exactly as it was. *)
Theorem event_failure_leaves_store req db :
  is_success (fst (exports.event req db)) = false ->
  snd (exports.event req db) = db.
Proof.
  destruct (event_cases req db)
    as [(st & msg & -> & Hst) | [(d & a & _ & _ & _ & ->) |
        [(o & a & _ & _ & _ & ->) | (o & a & d & _ & _ & _ & _ & ->)]]].
  - reflexivity.
  - destruct (deposit_outcome d a db)
      as [[_ ->] | [(ref & _ & _ & ->) | (ref & B & _ & _ & ->)]];
      cbn; first [reflexivity | discriminate].
  - destruct (withdraw_outcome o a db)
      as [[_ ->] | [(ref & _ & _ & ->) | [(ref & B & _ & _ & _ & ->) |
          (ref & B & _ & _ & _ & ->)]]];
      cbn; first [reflexivity | discriminate].
  - destruct (transfer_outcome o a d db)
      as [[_ ->] | (oref & dref & _ & _ &
           [[_ ->] | [(B & _ & _ & ->) | (B & _ & _ & ->)]])];
      cbn; first [reflexivity | discriminate].
Qed.

Lemma event_failure_leaves_store_witness :
  is_success (fst (exports.event (post_withdraw "bob" 10) (alice_has 60))) = false /\
  snd (exports.event (post_withdraw "bob" 10) (alice_has 60)) = alice_has 60.
Proof.
  assert (H1 : is_success
                 (fst (exports.event (post_withdraw "bob" 10) (alice_has 60))) = false)
    by (vm_compute; reflexivity).
  split; [exact H1|].
  exact (event_failure_leaves_store (post_withdraw "bob" 10) (alice_has 60) H1).
Defined.

(** X3.  [event] answers with a 2xx status only a POST whose type is
    deposit, withdraw or transfer and whose ids are paths of documents; for
    a withdraw or a transfer the origin's document moreover exists, and the
    amount is not above its balance. *)
Theorem event_success_requires_valid_request req db :
  is_success (fst (exports.event req db)) = true ->
  method req = "POST" /\
  ((body_type req = Some "deposit" /\
    exists destination ref,
      body_destination req = Some destination /\
      accounts.doc destination = Some ref) \/
   ((body_type req = Some "withdraw" \/
     (body_type req = Some "transfer" /\
      exists destination ref,
        body_destination req = Some destination /\
        accounts.doc destination = Some ref)) /\
    exists origin ref B,
      body_origin req = Some origin /\ accounts.doc origin = Some ref /\
      db !! ref = Some (Doc B) /\
      forall amount, body_amount req = Some amount -> amount <= B)).
Proof.
  destruct (event_cases req db)
    as [(st & msg & -> & Hst) | [(d & a & Hev & _ & _ & ->) |
        [(o & a & Hev & _ & _ & ->) | (o & a & d & Hev & _ & _ & _ & ->)]]].
  - cbn. destruct Hst as [-> | ->]; discriminate.
  - destruct Hev as (Hm & Ht & Hd & Ha).
    destruct (deposit_outcome d a db)
      as [[_ ->] | [(ref & Hr & _ & ->) | (ref & B & Hr & _ & ->)]];
      cbn; try discriminate; intros _; (split; [assumption|]); left;
      (split; [assumption|]); exists d, ref; split; assumption.
  - destruct Hev as (Hm & Ht & Ho & Ha).
    destruct (withdraw_outcome o a db)
      as [[_ ->] | [(ref & _ & _ & ->) | [(ref & B & _ & _ & _ & ->) |
          (ref & B & Hr & HB & Hle & ->)]]];
      cbn; try discriminate.
    intros _. split; [assumption|]. right. split; [left; assumption|].
    exists o, ref, B. repeat split; try assumption.
    intros amount Hamount. assert (amount = a) as -> by congruence. exact Hle.
  - destruct Hev as (Hm & Ht & Ho & Ha & Hd).
    destruct (transfer_outcome o a d db)
      as [[_ ->] | (oref & dref & Hor & Hdr &
           [[_ ->] | [(B & _ & _ & ->) | (B & HB & Hle & ->)]])];
      cbn; try discriminate.
    intros _. split; [assumption|]. right. split.
    + right. split; [assumption|]. exists d, dref. split; assumption.
    + exists o, oref, B. repeat split; try assumption.
      intros amount Hamount. assert (amount = a) as -> by congruence. exact Hle.
Qed.

Lemma event_success_requires_valid_request_witness :
  is_success (fst (exports.event (post_withdraw "alice" 40) (alice_has 100))) = true /\
  method (post_withdraw "alice" 40) = "POST".
Proof.
  assert (H1 : is_success
                 (fst (exports.event (post_withdraw "alice" 40) (alice_has 100))) = true)
    by (vm_compute; reflexivity).
  split; [exact H1|].
  exact (proj1 (event_success_requires_valid_request
                  (post_withdraw "alice" 40) (alice_has 100) H1)).
Defined.

(** X4.  [event] writes only the documents the request names: a document
    that is neither the one its origin resolves to nor the one its
    destination resolves to is left as it was, whatever the request. *)
Theorem event_touches_only_named_accounts req db ref :
  (forall origin, body_origin req = Some origin ->
                  accounts.doc origin <> Some ref) ->
  (forall destination, body_destination req = Some destination ->
                       accounts.doc destination <> Some ref) ->
  snd (exports.event req db) !! ref = db !! ref.
Proof.
  intros Hno Hnd.
  destruct (event_cases req db)
    as [(st & msg & -> & Hst) | [(d & a & Hev & _ & _ & ->) |
        [(o & a & Hev & _ & _ & ->) | (o & a & d & Hev & _ & _ & _ & ->)]]].
  - reflexivity.
  - destruct Hev as (_ & _ & Hd & _). specialize (Hnd d Hd).
    destruct (deposit_outcome d a db)
      as [[_ ->] | [(r & Hr & _ & ->) | (r & B & Hr & _ & ->)]];
      cbn [snd]; try reflexivity; apply lookup_insert_ne; congruence.
  - destruct Hev as (_ & _ & Ho & _). specialize (Hno o Ho).
    destruct (withdraw_outcome o a db)
      as [[_ ->] | [(r & _ & _ & ->) | [(r & B & _ & _ & _ & ->) |
          (r & B & Hr & _ & _ & ->)]]];
      cbn [snd]; try reflexivity.
    apply lookup_insert_ne. congruence.
  - destruct Hev as (_ & _ & Ho & _ & Hd).
    specialize (Hno o Ho). specialize (Hnd d Hd).
    destruct (transfer_outcome o a d db)
      as [[_ ->] | (oref & dref & Hor & Hdr &
           [[_ ->] | [(B & _ & _ & ->) | (B & _ & _ & ->)]])];
      cbn [snd]; try reflexivity.
    rewrite !lookup_insert_ne by congruence. reflexivity.
Qed.

Lemma event_touches_only_named_accounts_witness :
  (forall origin, body_origin (post_transfer "alice" 40 "bob") = Some origin ->
                  accounts.doc origin <> Some "carol") /\
  (forall destination,
     body_destination (post_transfer "alice" 40 "bob") = Some destination ->
     accounts.doc destination <> Some "carol") /\
  snd (exports.event (post_transfer "alice" 40 "bob")
         (carol_joins (alice_has 100) 7)) !! "carol" =
  carol_joins (alice_has 100) 7 !! "carol".
Proof.
  assert (H1 : forall origin,
             body_origin (post_transfer "alice" 40 "bob") = Some origin ->
             accounts.doc origin <> Some "carol")
    by (intros origin [= <-]; discriminate).
  assert (H2 : forall destination,
             body_destination (post_transfer "alice" 40 "bob") = Some destination ->
             accounts.doc destination <> Some "carol")
    by (intros destination [= <-]; discriminate).
  repeat (split; [assumption|]).
  exact (event_touches_only_named_accounts
           (post_transfer "alice" 40 "bob") (carol_joins (alice_has 100) 7)
           "carol" H1 H2).
Defined.

(** X5.  [event] never removes an account: a document of the store before
    the request is a document of the store after it. *)
Theorem event_never_deletes_an_account req db account :
  is_Some (db !! account) -> is_Some (snd (exports.event req db) !! account).
Proof.
  intros Hin.
  assert (Hins : forall k d (m : gmap string doc),
             is_Some (m !! account) -> is_Some (<[k := d]> m !! account)).
  { intros k d m Hm. destruct (decide (k = account)) as [->|Hne].
    - rewrite lookup_insert_eq. eauto.
    - rewrite lookup_insert_ne by assumption. exact Hm. }
  destruct (event_cases req db)
    as [(st & msg & -> & Hst) | [(d & a & _ & _ & _ & ->) |
        [(o & a & _ & _ & _ & ->) | (o & a & d & _ & _ & _ & _ & ->)]]].
  - exact Hin.
  - destruct (deposit_outcome d a db)
      as [[_ ->] | [(ref & _ & _ & ->) | (ref & B & _ & _ & ->)]];
      cbn [snd]; first [exact Hin | apply Hins, Hin].
  - destruct (withdraw_outcome o a db)
      as [[_ ->] | [(ref & _ & _ & ->) | [(ref & B & _ & _ & _ & ->) |
          (ref & B & _ & _ & _ & ->)]]];
      cbn [snd]; first [exact Hin | apply Hins, Hin].
  - destruct (transfer_outcome o a d db)
      as [[_ ->] | (oref & dref & _ & _ &
           [[_ ->] | [(B & _ & _ & ->) | (B & _ & _ & ->)]])];
      cbn [snd]; first [exact Hin | apply Hins, Hins, Hin].
Qed.

Lemma event_never_deletes_an_account_witness :
  is_Some (alice_has 100 !! "alice") /\
  is_Some (snd (exports.event (post_withdraw "alice" 100) (alice_has 100)) !! "alice").
Proof.
  assert (H1 : is_Some (alice_has 100 !! "alice")) by (exists (Doc 100); reflexivity).
  split; [exact H1|].
  exact (event_never_deletes_an_account
           (post_withdraw "alice" 100) (alice_has 100) "alice" H1).
Defined.

(** ** Invariants along a run of requests *)


Lemma event_keeps_nonnegative req db account :
  amount_not_negative req ->
  0 <= stored_balance db account ->
  0 <= stored_balance (snd (exports.event req db)) account.
Proof.
  intros Hamt Hpos.
  destruct (event_cases req db)
    as [(st & msg & -> & Hst) | [(d & a & Hev & _ & Hnz & ->) |
        [(o & a & _ & _ & _ & ->) | (o & a & d & Hev & _ & _ & Hnz & ->)]]].
  - exact Hpos.
  - destruct Hev as (_ & _ & _ & Ha). specialize (Hamt a Ha).
    destruct (deposit_outcome d a db)
      as [[_ ->] | [(ref & _ & _ & ->) | (ref & B & _ & HB & ->)]];
      cbn [snd]; try exact Hpos.
    + destruct (decide (ref = account)) as [->|Hne].
      * rewrite stored_balance_insert_eq. exact Hamt.
      * rewrite stored_balance_insert_ne by assumption. exact Hpos.
    + destruct (decide (ref = account)) as [->|Hne].
      * rewrite stored_balance_insert_eq. cbn [doc_balance].
        rewrite (stored_balance_lookup _ _ _ HB) in Hpos.
        apply round_nonnegative. lia.
      * rewrite stored_balance_insert_ne by assumption. exact Hpos.
  - apply withdraw_keeps_nonnegative, Hpos.
  - destruct Hev as (_ & _ & _ & Ha & _). specialize (Hamt a Ha).
    apply transfer_keeps_nonnegative; [lia | exact Hpos].
Qed.



(** X7.  Along a run of requests to [event] none of which carries a
    negative amount, an account whose balance is non-negative (one that
    does not exist counting as 0) never shows a negative balance. *)
Theorem events_keep_balances_nonnegative reqs db account :
  Forall amount_not_negative reqs ->
  0 <= stored_balance db account ->
  0 <= stored_balance (events reqs db) account.
Proof.
  unfold events. intros Hreqs. revert db.
  induction Hreqs as [|req reqs Hreq _ IH]; intros db Hpos; cbn [foldl];
    [exact Hpos|].
  apply IH, event_keeps_nonnegative; assumption.
Qed.

Lemma events_keep_balances_nonnegative_witness :
  Forall amount_not_negative
    [post_deposit "alice" 100; post_transfer "alice" 40 "bob";
     post_withdraw "alice" 1000] /\
  0 <= stored_balance ∅ "alice" /\
  0 <= stored_balance
         (events [post_deposit "alice" 100; post_transfer "alice" 40 "bob";
                  post_withdraw "alice" 1000] ∅) "alice".
Proof.
  assert (H1 : Forall amount_not_negative
                 [post_deposit "alice" 100; post_transfer "alice" 40 "bob";
                  post_withdraw "alice" 1000]).
  { repeat constructor; intros a Ha; cbn in Ha; inversion Ha; lia. }
  assert (H2 : 0 <= stored_balance ∅ "alice") by (vm_compute; discriminate).
  split; [exact H1|]. split; [exact H2|].
  exact (events_keep_balances_nonnegative _ ∅ "alice" H1 H2).
Defined.

(** ** The total held by the store *)

(** X8.  A deposit that [event] answers with success raises the total of
    the store by exactly its amount, when the new balance is a double. *)
Theorem deposit_adds_amount_to_total req db destination amount ref :
  deposit_event req destination amount ->
  accounts.doc destination = Some ref ->
  JS.representable (stored_balance db ref + amount) ->
  is_success (fst (exports.event req db)) = true ->
  total_balance (snd (exports.event req db)) = total_balance db + amount.
Proof.
  intros (Hm & Ht & Hd & Ha) Hr Hrep.
  destruct (event_cases req db)
    as [(st & msg & -> & Hst) | [(d & a & Hev & _ & _ & ->) |
        [(o & a & Hev & _ & _ & ->) | (o & a & d & Hev & _ & _ & _ & ->)]]].
  - cbn. destruct Hst as [-> | ->]; discriminate.
  - intros _. destruct Hev as (_ & _ & Hd' & Ha').
    assert (d = destination) as -> by congruence.
    assert (a = amount) as -> by congruence.
    destruct (deposit_outcome destination amount db)
      as [[Hbad _] | [(r & Hr' & Hnone & ->) | (r & B & Hr' & HB & ->)]];
      [congruence | | ]; assert (r = ref) as -> by congruence; cbn [snd];
      rewrite total_balance_insert; cbn [doc_balance].
    + unfold stored_balance. rewrite Hnone. lia.
    + rewrite (stored_balance_lookup _ _ _ HB) in Hrep |- *.
      rewrite (add_representable _ _ Hrep). lia.
  - destruct Hev as (_ & Ht' & _). congruence.
  - destruct Hev as (_ & Ht' & _). congruence.
Qed.

Lemma deposit_adds_amount_to_total_witness :
  deposit_event (post_deposit "alice" 25) "alice" 25 /\
  accounts.doc "alice" = Some "alice" /\
  JS.representable (stored_balance (alice_has 100) "alice" + 25) /\
  is_success (fst (exports.event (post_deposit "alice" 25) (alice_has 100))) = true /\
  total_balance (snd (exports.event (post_deposit "alice" 25) (alice_has 100))) =
  total_balance (alice_has 100) + 25.
Proof.
  assert (H1 : deposit_event (post_deposit "alice" 25) "alice" 25)
    by (repeat split; reflexivity).
  assert (H2 : accounts.doc "alice" = Some "alice") by reflexivity.
  assert (H3 : JS.representable (stored_balance (alice_has 100) "alice" + 25))
    by (split; vm_compute; reflexivity).
  assert (H4 : is_success
                 (fst (exports.event (post_deposit "alice" 25) (alice_has 100))) = true)
    by (vm_compute; reflexivity).
  repeat (split; [assumption|]).
  exact (deposit_adds_amount_to_total
           (post_deposit "alice" 25) (alice_has 100) "alice" 25 "alice"
           H1 H2 H3 H4).
Defined.

(** X9.  A withdraw that [event] answers with success lowers the total of
    the store by exactly its amount, when the new balance is a double. *)
Theorem withdraw_takes_amount_from_total req db origin amount ref :
  withdraw_event req origin amount ->
  accounts.doc origin = Some ref ->
  JS.representable (stored_balance db ref - amount) ->
  is_success (fst (exports.event req db)) = true ->
  total_balance (snd (exports.event req db)) = total_balance db - amount.
Proof.
  intros (Hm & Ht & Ho & Ha) Hr Hrep.
  destruct (event_cases req db)
    as [(st & msg & -> & Hst) | [(d & a & Hev & _ & _ & ->) |
        [(o & a & Hev & _ & _ & ->) | (o & a & d & Hev & _ & _ & _ & ->)]]].
  - cbn. destruct Hst as [-> | ->]; discriminate.
  - destruct Hev as (_ & Ht' & _). congruence.
  - destruct Hev as (_ & _ & Ho' & Ha').
    assert (o = origin) as -> by congruence.
    assert (a = amount) as -> by congruence.
    destruct (withdraw_outcome origin amount db)
      as [[_ ->] | [(r & _ & _ & ->) | [(r & B & _ & _ & _ & ->) |
          (r & B & Hr' & HB & _ & ->)]]];
      cbn; try discriminate.
    intros _. assert (r = ref) as -> by congruence.
    rewrite total_balance_insert. cbn [doc_balance].
    rewrite (stored_balance_lookup _ _ _ HB) in Hrep |- *.
    rewrite (sub_representable _ _ Hrep). lia.
  - destruct Hev as (_ & Ht' & _). congruence.
Qed.

Lemma withdraw_takes_amount_from_total_witness :
  withdraw_event (post_withdraw "alice" 40) "alice" 40 /\
  accounts.doc "alice" = Some "alice" /\
  JS.representable (stored_balance (alice_has 100) "alice" - 40) /\
  is_success (fst (exports.event (post_withdraw "alice" 40) (alice_has 100))) = true /\
  total_balance (snd (exports.event (post_withdraw "alice" 40) (alice_has 100))) =
  total_balance (alice_has 100) - 40.
Proof.
  assert (H1 : withdraw_event (post_withdraw "alice" 40) "alice" 40)
    by (repeat split; reflexivity).
  assert (H2 : accounts.doc "alice" = Some "alice") by reflexivity.
  assert (H3 : JS.representable (stored_balance (alice_has 100) "alice" - 40))
    by (split; vm_compute; reflexivity).
  assert (H4 : is_success
                 (fst (exports.event (post_withdraw "alice" 40) (alice_has 100))) = true)
    by (vm_compute; reflexivity).
  repeat (split; [assumption|]).
  exact (withdraw_takes_amount_from_total
           (post_withdraw "alice" 40) (alice_has 100) "alice" 40 "alice"
           H1 H2 H3 H4).
Defined.

(** X10.  A transfer between two different documents, whatever [event]
    answers to it, leaves the total of the store as it was, when the two
    balances it would write are doubles. *)
Theorem transfer_between_accounts_keeps_total
    req db origin amount destination oref dref :
  transfer_event req origin amount destination ->
  accounts.doc origin = Some oref -> accounts.doc destination = Some dref ->
  oref <> dref ->
  JS.representable (stored_balance db oref - amount) ->
  JS.representable (stored_balance db dref + amount) ->
  total_balance (snd (exports.event req db)) = total_balance db.
Proof.
  intros (Hm & Ht & Ho & Ha & Hd) Hor Hdr Hne Hsub Hadd.
  destruct (event_cases req db)
    as [(st & msg & -> & Hst) | [(d & a & Hev & _ & _ & ->) |
        [(o & a & Hev & _ & _ & ->) | (o & a & d & Hev & _ & _ & _ & ->)]]].
  - reflexivity.
  - destruct Hev as (_ & Ht' & _). congruence.
  - destruct Hev as (_ & Ht' & _). congruence.
  - destruct Hev as (_ & _ & Ho' & Ha' & Hd').
    assert (o = origin) as -> by congruence.
    assert (a = amount) as -> by congruence.
    assert (d = destination) as -> by congruence.
    destruct (transfer_outcome origin amount destination db)
      as [[_ ->] | (oref' & dref' & Hor' & Hdr' &
           [[_ ->] | [(B & _ & _ & ->) | (B & HB & _ & ->)]])];
      cbn [snd]; try reflexivity.
    assert (oref' = oref) as -> by congruence.
    assert (dref' = dref) as -> by congruence.
    rewrite (stored_balance_lookup _ _ _ HB) in Hsub.
    rewrite (sub_representable _ _ Hsub), (add_representable _ _ Hadd).
    rewrite !total_balance_insert.
    rewrite stored_balance_insert_ne by assumption.
    cbn [doc_balance]. rewrite (stored_balance_lookup _ _ _ HB). lia.
Qed.

Lemma transfer_between_accounts_keeps_total_witness :
  transfer_event (post_transfer "alice" 40 "bob") "alice" 40 "bob" /\
  accounts.doc "alice" = Some "alice" /\ accounts.doc "bob" = Some "bob" /\
  "alice" <> "bob" /\
  JS.representable (stored_balance (alice_has 100) "alice" - 40) /\
  JS.representable (stored_balance (alice_has 100) "bob" + 40) /\
  total_balance (snd (exports.event (post_transfer "alice" 40 "bob") (alice_has 100))) =
  total_balance (alice_has 100).
Proof.
  assert (H1 : transfer_event (post_transfer "alice" 40 "bob") "alice" 40 "bob")
    by (repeat split; reflexivity).
  assert (H2 : accounts.doc "alice" = Some "alice") by reflexivity.
  assert (H3 : accounts.doc "bob" = Some "bob") by reflexivity.
  assert (H4 : "alice" <> "bob") by discriminate.
  assert (H5 : JS.representable (stored_balance (alice_has 100) "alice" - 40))
    by (split; vm_compute; reflexivity).
  assert (H6 : JS.representable (stored_balance (alice_has 100) "bob" + 40))
    by (split; vm_compute; reflexivity).
  repeat (split; [assumption|]).
  exact (transfer_between_accounts_keeps_total
           (post_transfer "alice" 40 "bob") (alice_has 100)
           "alice" 40 "bob" "alice" "bob" H1 H2 H3 H4 H5 H6).
Defined.

(** ** Requests one after the other *)

(** X11.  A deposit of a non-zero amount followed by a withdraw of the same
    amount from the same document, whose balance was non-negative, succeeds
    and brings every account back to the balance it showed before the two
    requests, when the balance and the balance plus the amount are
    doubles. *)
Theorem deposit_then_withdraw_restores_balances
    req1 req2 db account amount ref :
  deposit_event req1 account amount -> withdraw_event req2 account amount ->
  accounts.doc account = Some ref -> amount <> 0 ->
  0 <= stored_balance db ref ->
  JS.representable (stored_balance db ref) ->
  JS.representable (stored_balance db ref + amount) ->
  let db1 := snd (exports.event req1 db) in
  fst (exports.event req2 db1) =
    Reply 201 (EventObj (Some (AccountView account (stored_balance db ref))) None) /\
  forall other,
    stored_balance (snd (exports.event req2 db1)) other = stored_balance db other.
Proof.
  intros Hev1 Hev2 Hr Hamt Hpos HrepS HrepA db1. subst db1.
  pose proof (doc_path_nonempty _ _ Hr) as Hne.
  rewrite (event_deposit_accepted req1 db account amount Hev1 Hne Hamt).
  set (S := stored_balance db ref) in *.
  assert (Hdep : snd (deposit account amount db) = <[ref := Doc (S + amount)]> db).
  { destruct (deposit_outcome account amount db)
      as [[Hbad _] | [(r & Hr' & Hnone & ->) | (r & B & Hr' & HB & ->)]];
      [congruence | | ]; assert (r = ref) as -> by congruence; cbn [snd].
    - unfold S, stored_balance. rewrite Hnone, Z.add_0_l. reflexivity.
    - unfold S in HrepA |- *.
      rewrite (stored_balance_lookup _ _ _ HB) in HrepA |- *.
      rewrite (add_representable _ _ HrepA). reflexivity. }
  rewrite Hdep.
  rewrite (event_withdraw_accepted req2 _ account amount Hev2 Hne Hamt).
  destruct (withdraw_outcome account amount (<[ref := Doc (S + amount)]> db))
    as [[Hbad _] | [(r & Hr' & Hl & _) | [(r & B & Hr' & Hl & HB & _) |
        (r & B & Hr' & Hl & HB & ->)]]];
    [congruence | | | ]; assert (r = ref) as -> by congruence;
    rewrite lookup_insert_eq in Hl.
  { discriminate. }
  { assert (B = S + amount) by congruence. lia. }
  assert (B = S + amount) as -> by congruence.
  assert (Hsub : JS.sub (S + amount) amount = S).
  { unfold JS.sub. rewrite Z.add_simpl_r. apply HrepS. }
  cbn [fst snd]. rewrite insert_insert_eq, Hsub. split; [reflexivity|].
  intros other. destruct (decide (ref = other)) as [<-|Hno].
  - apply stored_balance_insert_eq.
  - apply stored_balance_insert_ne, Hno.
Qed.

Lemma deposit_then_withdraw_restores_balances_witness :
  deposit_event (post_deposit "alice" 30) "alice" 30 /\
  withdraw_event (post_withdraw "alice" 30) "alice" 30 /\
  accounts.doc "alice" = Some "alice" /\ 30 <> 0 /\
  0 <= stored_balance (alice_has 100) "alice" /\
  JS.representable (stored_balance (alice_has 100) "alice") /\
  JS.representable (stored_balance (alice_has 100) "alice" + 30) /\
  fst (exports.event (post_withdraw "alice" 30)
         (snd (exports.event (post_deposit "alice" 30) (alice_has 100)))) =
    Reply 201 (EventObj
      (Some (AccountView "alice" (stored_balance (alice_has 100) "alice"))) None).
Proof.
  assert (H1 : deposit_event (post_deposit "alice" 30) "alice" 30)
    by (repeat split; reflexivity).
  assert (H2 : withdraw_event (post_withdraw "alice" 30) "alice" 30)
    by (repeat split; reflexivity).
  assert (H3 : accounts.doc "alice" = Some "alice") by reflexivity.
  assert (H4 : 30 <> 0) by lia.
  assert (H5 : 0 <= stored_balance (alice_has 100) "alice")
    by (vm_compute; discriminate).
  assert (H6 : JS.representable (stored_balance (alice_has 100) "alice"))
    by (split; vm_compute; reflexivity).
  assert (H7 : JS.representable (stored_balance (alice_has 100) "alice" + 30))
    by (split; vm_compute; reflexivity).
  repeat (split; [assumption|]).
  exact (proj1 (deposit_then_withdraw_restores_balances
                  (post_deposit "alice" 30) (post_withdraw "alice" 30)
                  (alice_has 100) "alice" 30 "alice" H1 H2 H3 H4 H5 H6 H7)).
Defined.



(** ** Replies of the withdraw and transfer branches *)

(** X13.  A withdraw or a transfer of a non-zero amount whose ids are paths
    of documents and whose origin does not exist is answered 404 with the
    body "0"; the store is as it was, so a transfer creates no
    destination. *)
Theorem missing_origin_is_answered_404 req db origin amount oref :
  withdraw_event req origin amount \/
  (exists destination dref,
     transfer_event req origin amount destination /\
     accounts.doc destination = Some dref) ->
  accounts.doc origin = Some oref -> amount <> 0 -> db !! oref = None ->
  exports.event req db = (Reply 404 (Text "0"), db).
Proof.
  intros [Hev | (d & dref & Hev & Hdr)] Hor Hamt Hnone.
  - rewrite (event_withdraw_accepted req db origin amount Hev
               (doc_path_nonempty _ _ Hor) Hamt).
    unfold withdraw, get. rewrite Hor, Hnone. reflexivity.
  - rewrite (event_transfer_accepted req db origin amount d Hev
               (doc_path_nonempty _ _ Hor) (doc_path_nonempty _ _ Hdr) Hamt).
    apply (transfer_origin_missing db origin amount d oref dref); assumption.
Qed.

Lemma missing_origin_is_answered_404_witness :
  (withdraw_event (post_transfer "bob" 10 "carol") "bob" 10 \/
   (exists destination dref,
      transfer_event (post_transfer "bob" 10 "carol") "bob" 10 destination /\
      accounts.doc destination = Some dref)) /\
  accounts.doc "bob" = Some "bob" /\ 10 <> 0 /\ alice_has 100 !! "bob" = None /\
  exports.event (post_transfer "bob" 10 "carol") (alice_has 100) =
    (Reply 404 (Text "0"), alice_has 100).
Proof.
  assert (H1 : withdraw_event (post_transfer "bob" 10 "carol") "bob" 10 \/
               (exists destination dref,
                  transfer_event (post_transfer "bob" 10 "carol") "bob" 10 destination /\
                  accounts.doc destination = Some dref)).
  { right. exists "carol", "carol". split; [repeat split; reflexivity | reflexivity]. }
  assert (H2 : accounts.doc "bob" = Some "bob") by reflexivity.
  assert (H3 : 10 <> 0) by lia.
  assert (H4 : alice_has 100 !! "bob" = None) by reflexivity.
  repeat (split; [assumption|]).
  exact (missing_origin_is_answered_404
           (post_transfer "bob" 10 "carol") (alice_has 100) "bob" 10 "bob"
           H1 H2 H3 H4).
Defined.

(** X14.  A transfer of a non-zero amount whose ids are paths of documents,
    from an existing origin whose balance is strictly less than the amount,
    is answered 400 "Insufficient funds.": the sentinel thrown inside the
    transaction is mapped to that reply, and the store is as it was. *)
Theorem transfer_insufficient_funds
    req db origin amount destination oref dref B :
  transfer_event req origin amount destination ->
  accounts.doc origin = Some oref -> accounts.doc destination = Some dref ->
  db !! oref = Some (Doc B) -> amount <> 0 -> B < amount ->
  exports.event req db = (Reply 400 (StatusObj "Insufficient funds."), db).
Proof.
  intros Hev Hor Hdr Ho Hamt Hlt.
  rewrite (event_transfer_accepted req db origin amount destination Hev
             (doc_path_nonempty _ _ Hor) (doc_path_nonempty _ _ Hdr) Hamt).
  apply (transfer_insufficient db origin amount destination oref dref (Doc B));
    assumption.
Qed.

Lemma transfer_insufficient_funds_witness :
  transfer_event (post_transfer "alice" 1000 "bob") "alice" 1000 "bob" /\
  accounts.doc "alice" = Some "alice" /\ accounts.doc "bob" = Some "bob" /\
  alice_has 60 !! "alice" = Some (Doc 60) /\ 1000 <> 0 /\ 60 < 1000 /\
  exports.event (post_transfer "alice" 1000 "bob") (alice_has 60) =
    (Reply 400 (StatusObj "Insufficient funds."), alice_has 60).
Proof.
  assert (H1 : transfer_event (post_transfer "alice" 1000 "bob") "alice" 1000 "bob")
    by (repeat split; reflexivity).
  assert (H2 : accounts.doc "alice" = Some "alice") by reflexivity.
  assert (H3 : accounts.doc "bob" = Some "bob") by reflexivity.
  assert (H4 : alice_has 60 !! "alice" = Some (Doc 60)) by reflexivity.
  assert (H5 : 1000 <> 0) by lia.
  assert (H6 : 60 < 1000) by lia.
  repeat (split; [assumption|]).
  exact (transfer_insufficient_funds
           (post_transfer "alice" 1000 "bob") (alice_has 60)
           "alice" 1000 "bob" "alice" "bob" 60 H1 H2 H3 H4 H5 H6).
Defined.

(** X15.  A transfer of a non-zero amount between two different existing
    documents, the origin holding at least the amount, is answered 201 with
    both new balances, and the store then holds [B - amount] for the origin
    and [D + amount] for the destination, when these two are doubles. *)
Theorem transfer_between_existing_accounts
    req db origin amount destination oref dref B D :
  transfer_event req origin amount destination ->
  accounts.doc origin = Some oref -> accounts.doc destination = Some dref ->
  amount <> 0 -> oref <> dref ->
  db !! oref = Some (Doc B) -> amount <= B -> db !! dref = Some (Doc D) ->
  JS.representable (B - amount) -> JS.representable (D + amount) ->
  fst (exports.event req db) =
    Reply 201 (EventObj (Some (AccountView origin (B - amount)))
                        (Some (AccountView destination (D + amount)))) /\
  snd (exports.event req db) !! oref = Some (Doc (B - amount)) /\
  snd (exports.event req db) !! dref = Some (Doc (D + amount)).
Proof.
  intros Hev Hor Hdr Hamt Hne Ho Hle Hd Hsub Hadd.
  rewrite (event_transfer_accepted req db origin amount destination Hev
             (doc_path_nonempty _ _ Hor) (doc_path_nonempty _ _ Hdr) Hamt).
  rewrite (transfer_existing_destination db origin amount destination oref dref B D)
    by assumption.
  rewrite (sub_representable _ _ Hsub), (add_representable _ _ Hadd).
  cbn [fst snd]. split; [reflexivity|]. split.
  - rewrite lookup_insert_ne by congruence. apply lookup_insert_eq.
  - apply lookup_insert_eq.
Qed.

Lemma transfer_between_existing_accounts_witness :
  transfer_event (post_transfer "alice" 4 "bob") "alice" 4 "bob" /\
  accounts.doc "alice" = Some "alice" /\ accounts.doc "bob" = Some "bob" /\
  4 <> 0 /\ "alice" <> "bob" /\
  alice_bob_have 10 3 !! "alice" = Some (Doc 10) /\ 4 <= 10 /\
  alice_bob_have 10 3 !! "bob" = Some (Doc 3) /\
  JS.representable (10 - 4) /\ JS.representable (3 + 4) /\
  fst (exports.event (post_transfer "alice" 4 "bob") (alice_bob_have 10 3)) =
    Reply 201 (EventObj (Some (AccountView "alice" (10 - 4)))
                        (Some (AccountView "bob" (3 + 4)))).
Proof.
  assert (H1 : transfer_event (post_transfer "alice" 4 "bob") "alice" 4 "bob")
    by (repeat split; reflexivity).
  assert (H2 : accounts.doc "alice" = Some "alice") by reflexivity.
  assert (H3 : accounts.doc "bob" = Some "bob") by reflexivity.
  assert (H4 : 4 <> 0) by lia.
  assert (H5 : "alice" <> "bob") by discriminate.
  assert (H6 : alice_bob_have 10 3 !! "alice" = Some (Doc 10)) by reflexivity.
  assert (H7 : 4 <= 10) by lia.
  assert (H8 : alice_bob_have 10 3 !! "bob" = Some (Doc 3)) by reflexivity.
  assert (H9 : JS.representable (10 - 4))
    by (split; vm_compute; reflexivity).
  assert (H10 : JS.representable (3 + 4))
    by (split; vm_compute; reflexivity).
  repeat (split; [assumption|]).
  exact (proj1 (transfer_between_existing_accounts
                  (post_transfer "alice" 4 "bob") (alice_bob_have 10 3)
                  "alice" 4 "bob" "alice" "bob" 10 3
                  H1 H2 H3 H4 H5 H6 H7 H8 H9 H10)).
Defined.

(** ** The balance query *)

(** X16.  [balance] never writes: whatever the request and its answer, the
    store after it is the store before it. *)
Theorem balance_never_writes req db : snd (exports.balance req db) = db.
Proof.
  unfold exports.balance.
  destruct (is_method req "GET"); cbn [negb]; [|reflexivity].
  destruct (JS.truthy_string (query_account_id req)); cbn [negb]; [|reflexivity].
  destruct (query_account_id req) as [k|]; [|reflexivity].
  destruct (accounts.doc k) as [ref|]; [|reflexivity].
  destruct (get db ref); reflexivity.
Qed.

(** X17.  [balance] answers with a 2xx status exactly when the request is a
    GET whose account id is the path of a document of the store; the reply
    is then 200 with the decimal text of that document's balance, for a
    balance up to 2^53 in magnitude. *)
Theorem balance_succeeds_iff_account_exists req db :
  (is_success (fst (exports.balance req db)) = true <->
   exists account_id ref d,
     balance_query req account_id /\ accounts.doc account_id = Some ref /\
     db !! ref = Some d) /\
  (forall account_id ref d,
     balance_query req account_id -> accounts.doc account_id = Some ref ->
     db !! ref = Some d -> - 2 ^ 53 <= doc_balance d <= 2 ^ 53 ->
     fst (exports.balance req db) =
       Reply 200 (Text (JS.toString (doc_balance d)))).
Proof.
  split; [split|].
  - unfold exports.balance, is_method.
    destruct (String.eqb (method req) "GET") eqn:Hm; cbn [negb];
      [|cbn; discriminate].
    apply String.eqb_eq in Hm.
    destruct (JS.truthy_string (query_account_id req)) eqn:Hq; cbn [negb];
      [|cbn; discriminate].
    apply truthy_string_inv in Hq as (k & Hq & Hid). rewrite Hq.
    destruct (accounts.doc k) as [ref|] eqn:Hr; [|cbn; discriminate].
    unfold get. destruct (db !! ref) as [d|] eqn:Hd; [|cbn; discriminate].
    intros _. exists k, ref, d. repeat split; assumption.
  - intros (k & ref & d & (Hm & Hq) & Hr & Hd).
    unfold exports.balance, is_method, get.
    rewrite Hm, Hq, (doc_truthy _ _ Hr), Hr, Hd. reflexivity.
  - intros k ref d (Hm & Hq) Hr Hd _.
    unfold exports.balance, is_method, get.
    rewrite Hm, Hq, (doc_truthy _ _ Hr), Hr, Hd. reflexivity.
Qed.

Lemma balance_succeeds_iff_account_exists_witness :
  balance_query (get_balance "alice/") "alice/" /\
  accounts.doc "alice/" = Some "alice" /\
  alice_has 60 !! "alice" = Some (Doc 60) /\
  - 2 ^ 53 <= doc_balance (Doc 60) <= 2 ^ 53 /\
  fst (exports.balance (get_balance "alice/") (alice_has 60)) =
    Reply 200 (Text (JS.toString (doc_balance (Doc 60)))).
Proof.
  assert (H1 : balance_query (get_balance "alice/") "alice/") by (split; reflexivity).
  assert (H2 : accounts.doc "alice/" = Some "alice") by reflexivity.
  assert (H3 : alice_has 60 !! "alice" = Some (Doc 60)) by reflexivity.
  assert (H4 : - 2 ^ 53 <= doc_balance (Doc 60) <= 2 ^ 53) by (cbn; lia).
  repeat (split; [assumption|]).
  exact (proj2 (balance_succeeds_iff_account_exists
                  (get_balance "alice/") (alice_has 60))
               "alice/" "alice" (Doc 60) H1 H2 H3 H4).
Defined.

(** X18.  The text [balance] sends determines the balance: two queries that
    find an account and get the same reply found the same balance. *)
Theorem balance_text_determines_balance req1 req2 db1 db2 k1 k2 ref1 ref2 d1 d2 :
  balance_query req1 k1 -> accounts.doc k1 = Some ref1 -> db1 !! ref1 = Some d1 ->
  balance_query req2 k2 -> accounts.doc k2 = Some ref2 -> db2 !! ref2 = Some d2 ->
  fst (exports.balance req1 db1) = fst (exports.balance req2 db2) ->
  doc_balance d1 = doc_balance d2.
Proof.
  intros (Hm1 & Hq1) Hr1 Hd1 (Hm2 & Hq2) Hr2 Hd2.
  unfold exports.balance, is_method, get.
  rewrite Hm1, Hq1, Hm2, Hq2, (doc_truthy _ _ Hr1), (doc_truthy _ _ Hr2).
  rewrite Hr1, Hr2, Hd1, Hd2. cbn. intros Heq.
  injection Heq as Heq. apply (inj pretty) in Heq. exact Heq.
Qed.

Lemma balance_text_determines_balance_witness :
  balance_query (get_balance "alice") "alice" /\
  accounts.doc "alice" = Some "alice" /\
  alice_has 60 !! "alice" = Some (Doc 60) /\
  balance_query (get_balance "bob") "bob" /\
  accounts.doc "bob" = Some "bob" /\
  alice_bob_have 10 60 !! "bob" = Some (Doc 60) /\
  fst (exports.balance (get_balance "alice") (alice_has 60)) =
    fst (exports.balance (get_balance "bob") (alice_bob_have 10 60)) /\
  doc_balance (Doc 60) = doc_balance (Doc 60).
Proof.
  assert (H1 : balance_query (get_balance "alice") "alice") by (split; reflexivity).
  assert (H2 : accounts.doc "alice" = Some "alice") by reflexivity.
  assert (H3 : alice_has 60 !! "alice" = Some (Doc 60)) by reflexivity.
  assert (H4 : balance_query (get_balance "bob") "bob") by (split; reflexivity).
  assert (H5 : accounts.doc "bob" = Some "bob") by reflexivity.
  assert (H6 : alice_bob_have 10 60 !! "bob" = Some (Doc 60)) by reflexivity.
  assert (H7 : fst (exports.balance (get_balance "alice") (alice_has 60)) =
               fst (exports.balance (get_balance "bob") (alice_bob_have 10 60)))
    by (vm_compute; reflexivity).
  repeat (split; [assumption|]).
  exact (balance_text_determines_balance
           (get_balance "alice") (get_balance "bob")
           (alice_has 60) (alice_bob_have 10 60)
           "alice" "bob" "alice" "bob" (Doc 60) (Doc 60)
           H1 H2 H3 H4 H5 H6 H7).
Defined.

(** X19.  After a deposit of a non-zero amount to the path of a document, a
    balance query for the same id is answered 200 with the text of what the
    account showed before plus the amount, when that sum is at most 2^53 in
    magnitude. *)
Theorem deposit_then_balance_shows_new_balance req1 req2 db account amount ref :
  deposit_event req1 account amount -> balance_query req2 account ->
  accounts.doc account = Some ref -> amount <> 0 ->
  - 2 ^ 53 <= stored_balance db ref + amount <= 2 ^ 53 ->
  fst (exports.balance req2 (snd (exports.event req1 db))) =
    Reply 200 (Text (JS.toString (stored_balance db ref + amount))).
Proof.
  intros Hev (Hm & Hq) Hr Hamt Hsafe.
  pose proof (small_is_representable _ Hsafe) as Hrep.
  rewrite (event_deposit_accepted req1 db account amount Hev
             (doc_path_nonempty _ _ Hr) Hamt).
  assert (Hdep : snd (deposit account amount db) =
                 <[ref := Doc (stored_balance db ref + amount)]> db).
  { destruct (deposit_outcome account amount db)
      as [[Hbad _] | [(r & Hr' & Hnone & ->) | (r & B & Hr' & HB & ->)]];
      [congruence | | ]; assert (r = ref) as -> by congruence; cbn [snd].
    - unfold stored_balance. rewrite Hnone, Z.add_0_l. reflexivity.
    - rewrite (stored_balance_lookup _ _ _ HB) in Hrep |- *.
      rewrite (add_representable _ _ Hrep). reflexivity. }
  rewrite Hdep.
  unfold exports.balance, is_method, get.
  rewrite Hm, Hq, (doc_truthy _ _ Hr), Hr, lookup_insert_eq. reflexivity.
Qed.

Lemma deposit_then_balance_shows_new_balance_witness :
  deposit_event (post_deposit "alice" 100) "alice" 100 /\
  balance_query (get_balance "alice") "alice" /\
  accounts.doc "alice" = Some "alice" /\ 100 <> 0 /\
  - 2 ^ 53 <= stored_balance (alice_has 5) "alice" + 100 <= 2 ^ 53 /\
  fst (exports.balance (get_balance "alice")
         (snd (exports.event (post_deposit "alice" 100) (alice_has 5)))) =
    Reply 200 (Text (JS.toString (stored_balance (alice_has 5) "alice" + 100))).
Proof.
  assert (H1 : deposit_event (post_deposit "alice" 100) "alice" 100)
    by (repeat split; reflexivity).
  assert (H2 : balance_query (get_balance "alice") "alice") by (split; reflexivity).
  assert (H3 : accounts.doc "alice" = Some "alice") by reflexivity.
  assert (H4 : 100 <> 0) by lia.
  assert (H5 : - 2 ^ 53 <= stored_balance (alice_has 5) "alice" + 100 <= 2 ^ 53)
    by (vm_compute; split; discriminate).
  repeat (split; [assumption|]).
  exact (deposit_then_balance_shows_new_balance
           (post_deposit "alice" 100) (get_balance "alice") (alice_has 5)
           "alice" 100 "alice" H1 H2 H3 H4 H5).
Defined.

(** ** Reset and what follows it *)

(** X20.  [reset] answers a POST 200 "OK" and deletes every document of the
    collection, whatever it held: what is left are the documents outside
    the collection, none when the store held only the collection.  Any
    other method is answered 405 and the store is untouched. *)
Theorem reset_empties_the_collection_on_post req db :
  (method req = "POST" ->
   exports.reset req db = (Reply 200 (Text "OK"), outside_collection db)) /\
  (forall ref, in_collection ref = true -> outside_collection db !! ref = None) /\
  (forall ref, in_collection ref = false ->
               outside_collection db !! ref = db !! ref) /\
  ((forall ref, is_Some (db !! ref) -> in_collection ref = true) ->
   outside_collection db = ∅) /\
  (method req <> "POST" ->
   exports.reset req db = (Reply 405 (StatusObj "Method Not Allowed."), db)).
Proof.
  split; [apply reset_deletes_the_collection|].
  split; [intros ref; apply outside_collection_lookup|].
  split; [|split].
  - intros ref Hout. unfold outside_collection.
    destruct (db !! ref) as [d|] eqn:Hd.
    + apply map_lookup_filter_Some. split; [assumption|]. cbn. congruence.
    + apply map_lookup_filter_None. left. assumption.
  - intros Hall. apply map_empty. intros ref.
    apply map_lookup_filter_None.
    destruct (db !! ref) as [d|] eqn:Hd; [right|left; reflexivity].
    intros x _ Hx. cbn in Hx. apply Hx, Hall. rewrite Hd. eauto.
  - intros Hm. unfold exports.reset, is_method.
    apply String.eqb_neq in Hm. rewrite Hm. reflexivity.
Qed.

Lemma reset_empties_the_collection_on_post_witness :
  method post_reset = "POST" /\
  method (get_balance "alice") <> "POST" /\
  (forall ref, is_Some (alice_bob_have 10 3 !! ref) -> in_collection ref = true) /\
  exports.reset post_reset (alice_bob_have 10 3) = (Reply 200 (Text "OK"), ∅) /\
  exports.reset (get_balance "alice") (alice_bob_have 10 3) =
    (Reply 405 (StatusObj "Method Not Allowed."), alice_bob_have 10 3).
Proof.
  assert (H1 : method post_reset = "POST") by reflexivity.
  assert (H2 : method (get_balance "alice") <> "POST") by discriminate.
  assert (H3 : forall ref, is_Some (alice_bob_have 10 3 !! ref) ->
                           in_collection ref = true).
  { intros ref [d Hd]. unfold alice_bob_have, alice_has in Hd.
    destruct (decide (ref = "bob")) as [->|Hb]; [reflexivity|].
    rewrite lookup_insert_ne in Hd by congruence.
    destruct (decide (ref = "alice")) as [->|Ha]; [reflexivity|].
    rewrite lookup_singleton_ne in Hd by congruence. discriminate. }
  split; [exact H1|]. split; [exact H2|]. split; [exact H3|]. split.
  - pose proof (reset_empties_the_collection_on_post post_reset (alice_bob_have 10 3))
      as (Hpost & _ & _ & Hempty & _).
    rewrite (Hpost H1), (Hempty H3). reflexivity.
  - exact (proj2 (proj2 (proj2 (proj2
             (reset_empties_the_collection_on_post
                (get_balance "alice") (alice_bob_have 10 3))))) H2).
Defined.

(** X21.  After a POST to [reset] every account of the collection is
    unknown: a balance query for an id that names a document of the
    collection, and a withdraw or transfer of a non-zero amount from such an
    origin, is answered 404 with the body "0", and the store stays as the
    reset left it. *)
Theorem after_reset_every_account_is_unknown req0 db :
  method req0 = "POST" ->
  let db0 := snd (exports.reset req0 db) in
  (forall req account_id ref,
     balance_query req account_id ->
     accounts.doc account_id = Some ref -> in_collection ref = true ->
     exports.balance req db0 = (Reply 404 (Text "0"), db0)) /\
  (forall req origin amount oref,
     withdraw_event req origin amount \/
     (exists destination dref,
        transfer_event req origin amount destination /\
        accounts.doc destination = Some dref) ->
     accounts.doc origin = Some oref -> in_collection oref = true ->
     amount <> 0 ->
     exports.event req db0 = (Reply 404 (Text "0"), db0)).
Proof.
  intros Hm db0. subst db0.
  rewrite (reset_deletes_the_collection req0 db Hm). cbn [snd]. split.
  - intros req k ref (Hg & Hq) Hr Hin.
    unfold exports.balance, is_method, get.
    rewrite Hg, Hq, (doc_truthy _ _ Hr), Hr.
    rewrite (outside_collection_lookup db ref Hin). reflexivity.
  - intros req o a oref [Hev | (d & dref & Hev & Hdr)] Hor Hin Hamt.
    + rewrite (event_withdraw_accepted req _ o a Hev
                 (doc_path_nonempty _ _ Hor) Hamt).
      unfold withdraw, get.
      rewrite Hor, (outside_collection_lookup db oref Hin). reflexivity.
    + rewrite (event_transfer_accepted req _ o a d Hev
                 (doc_path_nonempty _ _ Hor) (doc_path_nonempty _ _ Hdr) Hamt).
      apply (transfer_origin_missing _ o a d oref dref); try assumption.
      apply outside_collection_lookup, Hin.
Qed.

Lemma after_reset_every_account_is_unknown_witness :
  method post_reset = "POST" /\
  balance_query (get_balance "alice") "alice" /\
  accounts.doc "alice" = Some "alice" /\ in_collection "alice" = true /\
  exports.balance (get_balance "alice")
    (snd (exports.reset post_reset (alice_has 100))) =
    (Reply 404 (Text "0"), snd (exports.reset post_reset (alice_has 100))).
Proof.
  assert (H1 : method post_reset = "POST") by reflexivity.
  assert (H2 : balance_query (get_balance "alice") "alice") by (split; reflexivity).
  assert (H3 : accounts.doc "alice" = Some "alice") by reflexivity.
  assert (H4 : in_collection "alice" = true) by reflexivity.
  repeat (split; [assumption|]).
  exact (proj1 (after_reset_every_account_is_unknown post_reset (alice_has 100) H1)
               (get_balance "alice") "alice" "alice" H2 H3 H4).
Defined.
